(** * Market-making ledger and PnL attribution: a shallow embedding

    This development embeds the bookkeeping core of the AMM package
    (trading/trades.py, trading/market_maker.py, trading/exchange.py,
    trading/hedge_fund.py, utils/quotes.py, utils/pnl.py and utils/visu.py)
    and proves its accounting properties.

    Modelling conventions.
    - A Python [float] is embedded twice. In the first embedding it is a
      real number of [R]; the statements made on it are those that rounding
      leaves alone: which branch runs, which record is written, what an
      expression is built from, order and sign. The statements in which
      rounding decides (the accumulated positions, the equity of the two
      engines) are made on the second embedding, [binary64], where a
      [float] is an IEEE-754 binary64 number. Infinities and NaN as inputs
      are outside both.
    - A [pd.Timestamp] is an integer of [Z]; a ticker is a [string].
    - A Python [dict] is an association list in insertion order; lookup
      reads and assignment overwrites the first binding of a key.
    - A Python exception is a value of [exception]; a call that may raise
      returns a [result].
    - A [pd.DataFrame] of prices is its index (the dates), its columns
      (the tickers) and its cells; index and column labels are taken to be
      pairwise distinct, as in a price table. *)

From Stdlib Require Import Reals Lra List String ZArith Bool Permutation.
Import ListNotations.
Open Scope string_scope.
Open Scope list_scope.
Open Scope R_scope.

(** ** The Python runtime the code relies on *)

Inductive exception : Type :=
| ValueError (msg : string)
| KeyError
| ZeroDivisionError.

Inductive result (A : Type) : Type :=
| Ok (a : A)
| Raise (e : exception).
Arguments Ok {A} a.
Arguments Raise {A} e.

Definition bind {A B : Type} (m : result A) (k : A -> result B) : result B :=
  match m with
  | Ok a => k a
  | Raise e => Raise e
  end.

Notation "x <- m ;; k" := (bind m (fun x => k))
  (at level 61, m at next level, right associativity).

(** [a / b] on two Python [float]s: a zero divisor raises
    ZeroDivisionError. *)
Definition truediv (a b : R) : result R :=
  if Req_dec_T b 0 then Raise ZeroDivisionError else Ok (a / b).

Module dict.

Definition t (V : Type) : Type := list (string * V).

(** [k in d] *)
Fixpoint contains {V : Type} (d : t V) (k : string) : bool :=
  match d with
  | [] => false
  | (k', _) :: d' => if String.eqb k' k then true else contains d' k
  end.

(** [d.get(k)], [None] when the key is absent *)
Fixpoint lookup {V : Type} (d : t V) (k : string) : option V :=
  match d with
  | [] => None
  | (k', v) :: d' => if String.eqb k' k then Some v else lookup d' k
  end.

(** [d.get(k, default)] *)
Definition get {V : Type} (d : t V) (k : string) (default : V) : V :=
  match lookup d k with
  | Some v => v
  | None => default
  end.

(** [d[k] = v]: overwrite in place, or append a new binding *)
Fixpoint setitem {V : Type} (d : t V) (k : string) (v : V) : t V :=
  match d with
  | [] => [(k, v)]
  | (k', v') :: d' =>
      if String.eqb k' k then (k', v) :: d' else (k', v') :: setitem d' k v
  end.

(** [d[k] += v] on a [defaultdict(float)] *)
Definition iadd (d : t R) (k : string) (v : R) : t R :=
  setitem d k (get d k 0 + v).

End dict.

(** ** pandas: a Series over tickers and a DataFrame of prices *)

Definition mem_string (c : string) (l : list string) : bool :=
  existsb (String.eqb c) l.

Definition mem_Z (d : Z) (l : list Z) : bool :=
  existsb (BinInt.Z.eqb d) l.

Fixpoint insert_sorted (d : Z) (l : list Z) : list Z :=
  match l with
  | [] => [d]
  | x :: l' => if (d <=? x)%Z then d :: l else x :: insert_sorted d l'
  end.

Fixpoint sort_dates (l : list Z) : list Z :=
  match l with
  | [] => []
  | d :: l' => insert_sorted d (sort_dates l')
  end.

Module Series.

Record t : Type := mk { labels : list string; data : string -> R }.

(** [s1 - s2] for two rows of one frame (same labels) *)
Definition sub (s1 s2 : t) : t :=
  mk (labels s1) (fun c => data s1 c - data s2 c).

(** [s.get(c, default)] *)
Definition get (s : t) (c : string) (default : R) : R :=
  if mem_string c (labels s) then data s c else default.

End Series.

Module DataFrame.

Record t : Type := mk {
  index : list Z;
  columns : list string;
  values : Z -> string -> R
}.

(** [c in df.columns] *)
Definition has_column (df : t) (c : string) : bool :=
  mem_string c (columns df).

Definition has_index (df : t) (d : Z) : bool :=
  mem_Z d (index df).

(** [df.sort_index()] *)
Definition sort_index (df : t) : t :=
  mk (sort_dates (index df)) (columns df) (values df).

(** [df.loc[d]]: the row at date [d], [KeyError] when [d] is no label *)
Definition loc_row (df : t) (d : Z) : result Series.t :=
  if has_index df d then Ok (Series.mk (columns df) (values df d))
  else Raise KeyError.

(** [df.loc[d, c]]: one cell, [KeyError] on a missing date or ticker *)
Definition loc (df : t) (d : Z) (c : string) : result R :=
  if has_index df d && has_column df c then Ok (values df d c)
  else Raise KeyError.

End DataFrame.

(** ** trading/trades.py *)

Module trades.

Module QuotedTrade.
Record t : Type := mk {
  ticker : string;
  trade_volume : R;
  ref_price : R;
  bid_price : R;
  offer_price : R;
  date : Z
}.

(** The dataclass-generated [__init__]: it stores its arguments. *)
Definition init (ticker : string) (trade_volume ref_price bid_price
    offer_price : R) (date : Z) : result t :=
  Ok (mk ticker trade_volume ref_price bid_price offer_price date).
End QuotedTrade.

Module CompletedTrade.
Record t : Type := mk {
  ticker : string;
  trade_volume : R;
  trade_price : R;
  mm_action : string;
  ref_price : R;
  bid_price : R;
  offer_price : R;
  date : Z
}.

Definition init (ticker : string) (trade_volume trade_price : R)
    (mm_action : string) (ref_price bid_price offer_price : R)
    (date : Z) : result t :=
  Ok (mk ticker trade_volume trade_price mm_action ref_price bid_price
         offer_price date).
End CompletedTrade.

End trades.

(** ** trading/market_maker.py *)

Module market_maker.

Module Position.
Record t : Type := mk { ticker : string; position_volume : R }.
End Position.

Module ETFPosition.
Record t : Type := mk {
  ticker : string;
  trade_volume : R;
  trade_price : R;
  action : string;
  date : Z
}.

Definition init (ticker : string) (trade_volume trade_price : R)
    (action : string) (date : Z) : result t :=
  Ok (mk ticker trade_volume trade_price action date).
End ETFPosition.

Module ExecutedTrade.
Record t : Type := mk {
  ticker : string;
  trade_volume : R;
  trade_price : R;
  action : string;
  date : Z
}.

Definition init (ticker : string) (trade_volume trade_price : R)
    (action : string) (date : Z) : result t :=
  Ok (mk ticker trade_volume trade_price action date).
End ExecutedTrade.

(** The strings the methods return, kept as structured values (float and
    timestamp formatting is not modelled). *)
Inductive message : Type :=
| QuotedTradeAdded (ticker : string) (date : Z)
| CompletedTradeLogged (mm_action : string) (trade_volume : R)
    (ticker : string) (trade_price : R)
| HedgeLogged (action : string) (trade_volume : R) (ticker : string)
    (trade_price : R).

(** A [Position] is a mutable object. The local variable [pos] of
    [add_trade] either aliases the object held by [current_positions]
    under a key, so that mutating it mutates the map at once, or is a new
    object that the map does not hold yet. *)
Inductive pos_ref : Type :=
| Stored (key : string)
| Fresh (p : Position.t).

(** [current_positions.get(ticker, Position(ticker, 0.0))] *)
Definition positions_get (current_positions : dict.t Position.t)
    (ticker : string) : pos_ref :=
  if dict.contains current_positions ticker then Stored ticker
  else Fresh (Position.mk ticker 0).

(** [pos.position_volume = f(pos.position_volume)] through a reference *)
Fixpoint mutate_stored (current_positions : dict.t Position.t)
    (key : string) (f : R -> R) : dict.t Position.t :=
  match current_positions with
  | [] => []
  | (k, p) :: rest =>
      if String.eqb k key
      then (k, Position.mk (Position.ticker p)
                 (f (Position.position_volume p))) :: rest
      else (k, p) :: mutate_stored rest key f
  end.

Definition mutate (current_positions : dict.t Position.t) (pos : pos_ref)
    (f : R -> R) : dict.t Position.t * pos_ref :=
  match pos with
  | Stored key => (mutate_stored current_positions key f, pos)
  | Fresh p =>
      (current_positions,
       Fresh (Position.mk (Position.ticker p)
                (f (Position.position_volume p))))
  end.

(** [current_positions[ticker] = pos] *)
Definition positions_store (current_positions : dict.t Position.t)
    (ticker : string) (pos : pos_ref) : dict.t Position.t :=
  match pos with
  | Stored key =>
      match dict.lookup current_positions key with
      | Some p => dict.setitem current_positions ticker p
      | None => current_positions
      end
  | Fresh p => dict.setitem current_positions ticker p
  end.

Module MarketMaker.
Record t : Type := mk {
  quoted_trades : list trades.QuotedTrade.t;
  completed_trades : list trades.CompletedTrade.t;
  current_positions : dict.t Position.t;
  ETF_positions : list ETFPosition.t
}.

(** [x if x else []] on an optional list *)
Definition or_empty {A : Type} (l : option (list A)) : list A :=
  match l with
  | Some (x :: l') => x :: l'
  | _ => []
  end.

Definition init (quoted_trades : option (list trades.QuotedTrade.t))
    (completed_trades : option (list trades.CompletedTrade.t)) : t :=
  mk (or_empty quoted_trades) (or_empty completed_trades) [] [].

Definition mm := init.

Definition add_quoted_trade (self : t) (trade : trades.QuotedTrade.t)
    : t * result message :=
  let self := mk (quoted_trades self ++ [trade]) (completed_trades self)
                 (current_positions self) (ETF_positions self) in
  (self, Ok (QuotedTradeAdded (trades.QuotedTrade.ticker trade)
               (trades.QuotedTrade.date trade))).

Definition add_trade (self : t) (trade : trades.CompletedTrade.t)
    : t * result message :=
  let ticker := trades.CompletedTrade.ticker trade in
  let mm_action := trades.CompletedTrade.mm_action trade in
  let trade_volume := trades.CompletedTrade.trade_volume trade in
  let self := mk (quoted_trades self) (completed_trades self ++ [trade])
                 (current_positions self) (ETF_positions self) in
  let pos := positions_get (current_positions self) ticker in
  if String.eqb mm_action "buy" then
    let '(positions, pos) :=
      mutate (current_positions self) pos (fun v => v + trade_volume) in
    (mk (quoted_trades self) (completed_trades self)
        (positions_store positions ticker pos) (ETF_positions self),
     Ok (CompletedTradeLogged mm_action trade_volume ticker
           (trades.CompletedTrade.trade_price trade)))
  else if String.eqb mm_action "sell" then
    let '(positions, pos) :=
      mutate (current_positions self) pos (fun v => v - trade_volume) in
    (mk (quoted_trades self) (completed_trades self)
        (positions_store positions ticker pos) (ETF_positions self),
     Ok (CompletedTradeLogged mm_action trade_volume ticker
           (trades.CompletedTrade.trade_price trade)))
  else
    (self, Raise (ValueError ("Unknown mm_action: " ++ mm_action))).

Definition update_ETF_position (self : t) (executed_trade : ExecutedTrade.t)
    : t * result message :=
  let ticker := ExecutedTrade.ticker executed_trade in
  let action := ExecutedTrade.action executed_trade in
  let trade_volume := ExecutedTrade.trade_volume executed_trade in
  let trade_price := ExecutedTrade.trade_price executed_trade in
  let pos := positions_get (current_positions self) ticker in
  let log (positions : dict.t Position.t) (pos : pos_ref) :=
    let etf_pos := ETFPosition.mk ticker trade_volume trade_price action
                     (ExecutedTrade.date executed_trade) in
    (mk (quoted_trades self) (completed_trades self)
        (positions_store positions ticker pos)
        (ETF_positions self ++ [etf_pos]),
     Ok (HedgeLogged action trade_volume ticker trade_price)) in
  if String.eqb action "buy" then
    let '(positions, pos) :=
      mutate (current_positions self) pos (fun v => v + trade_volume) in
    log positions pos
  else if String.eqb action "sell" then
    let '(positions, pos) :=
      mutate (current_positions self) pos (fun v => v - trade_volume) in
    log positions pos
  else
    (self, Raise (ValueError ("Unknown action " ++ action))).

End MarketMaker.

(** A trade event handed to the ledger: a client fill for [add_trade] or
    an execution report for [update_ETF_position]. *)
Inductive event : Type :=
| client_fill (trade : trades.CompletedTrade.t)
| hedge_fill (executed_trade : ExecutedTrade.t).

Definition ingest (self : MarketMaker.t) (e : event)
    : MarketMaker.t * result message :=
  match e with
  | client_fill trade => MarketMaker.add_trade self trade
  | hedge_fill executed_trade =>
      MarketMaker.update_ETF_position self executed_trade
  end.

(** Successive calls; the first exception stops the caller. *)
Fixpoint ingest_all (self : MarketMaker.t) (events : list event)
    : MarketMaker.t * result unit :=
  match events with
  | [] => (self, Ok tt)
  | e :: rest =>
      match ingest self e with
      | (self', Ok _) => ingest_all self' rest
      | (self', Raise exn) => (self', Raise exn)
      end
  end.

Definition event_ticker (e : event) : string :=
  match e with
  | client_fill trade => trades.CompletedTrade.ticker trade
  | hedge_fill executed_trade => ExecutedTrade.ticker executed_trade
  end.

Definition event_action (e : event) : string :=
  match e with
  | client_fill trade => trades.CompletedTrade.mm_action trade
  | hedge_fill executed_trade => ExecutedTrade.action executed_trade
  end.

Definition event_volume (e : event) : R :=
  match e with
  | client_fill trade => trades.CompletedTrade.trade_volume trade
  | hedge_fill executed_trade => ExecutedTrade.trade_volume executed_trade
  end.

Definition valid_action (a : string) : bool :=
  String.eqb a "buy" || String.eqb a "sell".

Definition traded (ticker : string) (events : list event) : bool :=
  existsb (fun e => String.eqb (event_ticker e) ticker) events.

End market_maker.


(** ** trading/exchange.py *)

Module exchange.

Module ExchangeTrade.
Record t : Type := mk {
  ticker : string;
  trade_volume : R;
  ref_price : R;
  action : string;
  date : Z
}.
End ExchangeTrade.

Module ExecutedTrade.
Record t : Type := mk {
  ticker : string;
  trade_volume : R;
  trade_price : R;
  action : string;
  date : Z
}.
End ExecutedTrade.

Module Exchange.
Record t : Type := mk { prices : DataFrame.t }.

Definition init (prices : DataFrame.t) : t := mk prices.

(** [try: px = float(prices.loc[date, ticker])  except KeyError: px = ref_price];
    any other exception would propagate. *)
Definition execute (self : t) (trade : ExchangeTrade.t)
    : result ExecutedTrade.t :=
  px <- match DataFrame.loc (prices self) (ExchangeTrade.date trade)
                (ExchangeTrade.ticker trade) with
        | Ok v => Ok v
        | Raise KeyError => Ok (ExchangeTrade.ref_price trade)
        | Raise e => Raise e
        end ;;
  Ok (ExecutedTrade.mk (ExchangeTrade.ticker trade)
        (ExchangeTrade.trade_volume trade) px (ExchangeTrade.action trade)
        (ExchangeTrade.date trade)).
End Exchange.

End exchange.

(** ** utils/quotes.py *)

Module quotes.

Definition fixed_quote (current_price base_spread : R) : R * R :=
  let spread := current_price * base_spread in
  let bid_price := current_price - spread / 2 in
  let offer_price := current_price + spread / 2 in
  (bid_price, offer_price).

(** [np.tanh] is read as the hyperbolic tangent of the reals; its
    binary64 values reach -1.0 and 1.0, see [binary64.quotes]. *)
Definition skewed_quote (current_price base_spread inventory
    inventory_ideal_size sensitivity max_skew : R) : result (R * R) :=
  raw_skew <- truediv (sensitivity * inventory) inventory_ideal_size ;;
  let skew := current_price * max_skew * tanh raw_skew in
  let spread := current_price * base_spread in
  let bid_price := current_price + skew - spread / 2 in
  let offer_price := current_price + skew + spread / 2 in
  Ok (bid_price, offer_price).

End quotes.

(** ** utils/pnl.py *)

Module pnl.

Import market_maker.

Definition transaction_cost (volume price fee_rate fee_per_unit : R) : R :=
  let notional := Rabs volume * price in
  fee_rate * notional + fee_per_unit * Rabs volume.

(** An entry of [trades_by_date]: the tag and the trade. *)
Inductive tagged : Type :=
| client (ct : trades.CompletedTrade.t)
| hedge (ht : ETFPosition.t).

(** [trades_by_date] is a [defaultdict(list)] keyed by date. *)
Definition append_at (trades_by_date : Z -> list tagged) (d : Z) (x : tagged)
    : Z -> list tagged :=
  fun d' => if (d' =? d)%Z then trades_by_date d' ++ [x] else trades_by_date d'.

Definition group_trades (mm : MarketMaker.t) : Z -> list tagged :=
  let trades_by_date := fun _ => [] in
  let trades_by_date :=
    fold_left (fun tbd ct => append_at tbd (trades.CompletedTrade.date ct)
                               (client ct))
      (MarketMaker.completed_trades mm) trades_by_date in
  fold_left (fun tbd ht => append_at tbd (ETFPosition.date ht) (hedge ht))
    (MarketMaker.ETF_positions mm) trades_by_date.

(** The fee arguments shared by both engines. *)
Record fees : Type := mk_fees {
  fee_rate_client : R;
  fee_rate_hedge : R;
  fee_per_unit_client : R;
  fee_per_unit_hedge : R
}.

(** The state carried from one date to the next. *)
Record state : Type := mk_state {
  inventory_main : dict.t R;
  inventory_hedge : dict.t R;
  cash : R
}.

Definition initial_state : state := mk_state [] [] 0.

(** The per-date accumulators [sp], [cc] and [hc]. *)
Record flow : Type := mk_flow { sp : R; cc : R; hc : R }.

(** The values stored into the six Series at one date. *)
Module entry.
Record t : Type := mk {
  date : Z;
  spread_pnl : R;
  inventory_pnl : R;
  hedge_pnl : R;
  client_cost : R;
  hedge_cost : R;
  equity : R
}.
End entry.

(** [futures_multipliers or {}] *)
Definition multipliers_or_empty (futures_multipliers : option (dict.t R))
    : dict.t R :=
  match futures_multipliers with
  | Some (x :: d) => x :: d
  | _ => []
  end.

(** Step 1, client book: lines 71-74. *)
Definition inventory_move (prices : DataFrame.t) (dP : Series.t)
    (inventory_main : dict.t R) : R :=
  fold_left
    (fun inv_p '(ticker, qty) =>
       if DataFrame.has_column prices ticker
       then inv_p + qty * Series.get dP ticker 0
       else inv_p)
    inventory_main 0.

(** Step 1, hedge book: lines 77-81. *)
Definition hedge_move (prices : DataFrame.t) (dP : Series.t)
    (futures_multipliers : dict.t R) (inventory_hedge : dict.t R) : R :=
  fold_left
    (fun hed_p '(ticker, qty) =>
       if DataFrame.has_column prices ticker
       then
         let mult := dict.get futures_multipliers ticker 1 in
         hed_p + qty * mult * Series.get dP ticker 0
       else hed_p)
    inventory_hedge 0.

(** Step 1: lines 67-84; without a previous date the two Series keep their
    initial 0.0. *)
Definition price_move (prices : DataFrame.t) (futures_multipliers : dict.t R)
    (prev_date : option Z) (current_date : Z) (st : state) : result (R * R) :=
  match prev_date with
  | None => Ok (0, 0)
  | Some prev =>
      cur_row <- DataFrame.loc_row prices current_date ;;
      prev_row <- DataFrame.loc_row prices prev ;;
      let dP := Series.sub cur_row prev_row in
      Ok (inventory_move prices dP (inventory_main st),
          hedge_move prices dP futures_multipliers (inventory_hedge st))
  end.

(** Step 2, the body of the loop over the trades of one date: lines 91-136. *)
Definition apply_trade (f : fees) (acc : state * flow) (tr : tagged)
    : state * flow :=
  let '(st, fl) := acc in
  match tr with
  | client tr =>
      let ticker := trades.CompletedTrade.ticker tr in
      let price := trades.CompletedTrade.trade_price tr in
      let vol := trades.CompletedTrade.trade_volume tr in
      let signed_vol :=
        if String.eqb (trades.CompletedTrade.mm_action tr) "buy"
        then vol else - vol in
      let mid := trades.CompletedTrade.ref_price tr in
      let sp := sp fl + (mid - price) * signed_vol in
      let cost := transaction_cost vol price (fee_rate_client f)
                    (fee_per_unit_client f) in
      let cc := cc fl + cost in
      let notional := signed_vol * price in
      let cash := cash st - notional in
      let cash := cash - cost in
      (mk_state (dict.iadd (inventory_main st) ticker signed_vol)
         (inventory_hedge st) cash,
       mk_flow sp cc (hc fl))
  | hedge tr =>
      let ticker := ETFPosition.ticker tr in
      let price := ETFPosition.trade_price tr in
      let vol := ETFPosition.trade_volume tr in
      let signed_vol :=
        if String.eqb (ETFPosition.action tr) "buy" then vol else - vol in
      let cost := transaction_cost vol price (fee_rate_hedge f)
                    (fee_per_unit_hedge f) in
      let hc := hc fl + cost in
      let notional := signed_vol * price in
      let cash := cash st - notional in
      let cash := cash - cost in
      (mk_state (inventory_main st)
         (dict.iadd (inventory_hedge st) ticker signed_vol) cash,
       mk_flow (sp fl) (cc fl) hc)
  end.

(** A monadic left fold: a [for] loop whose body may raise. *)
Fixpoint for_each {A B : Type} (body : A -> B -> result A) (l : list B)
    (a : A) : result A :=
  match l with
  | [] => Ok a
  | x :: l' => a' <- body a x ;; for_each body l' a'
  end.

(** Step 3, client book: lines 144-146. *)
Definition value_main (prices : DataFrame.t) (current_date : Z)
    (inventory_main : dict.t R) (port_val : R) : result R :=
  for_each
    (fun port_val '(ticker, qty) =>
       if DataFrame.has_column prices ticker
       then p <- DataFrame.loc prices current_date ticker ;;
            Ok (port_val + qty * p)
       else Ok port_val)
    inventory_main port_val.

(** Step 3, hedge book: lines 147-150. *)
Definition value_hedge (prices : DataFrame.t) (current_date : Z)
    (futures_multipliers : dict.t R) (inventory_hedge : dict.t R)
    (port_val : R) : result R :=
  for_each
    (fun port_val '(ticker, qty) =>
       if DataFrame.has_column prices ticker
       then
         let mult := dict.get futures_multipliers ticker 1 in
         p <- DataFrame.loc prices current_date ticker ;;
         Ok (port_val + qty * mult * p)
       else Ok port_val)
    inventory_hedge port_val.

(** Step 3: lines 143-150. *)
Definition mark_to_market (prices : DataFrame.t) (futures_multipliers : dict.t R)
    (current_date : Z) (st : state) : result R :=
  port_val <- value_main prices current_date (inventory_main st) 0 ;;
  value_hedge prices current_date futures_multipliers (inventory_hedge st)
    port_val.

(** One iteration of the loop over the dates: lines 65-153. It returns the
    values written at [current_date] and the state carried forward. *)
Definition on_date (prices : DataFrame.t) (trades_by_date : Z -> list tagged)
    (f : fees) (futures_multipliers : dict.t R) (prev_date : option Z)
    (current_date : Z) (st : state) : result (entry.t * state) :=
  moves <- price_move prices futures_multipliers prev_date current_date st ;;
  let '(inv_p, hed_p) := moves in
  let '(st, fl) :=
    fold_left (apply_trade f) (trades_by_date current_date)
      (st, mk_flow 0 0 0) in
  port_val <- mark_to_market prices futures_multipliers current_date st ;;
  Ok (entry.mk current_date (sp fl) inv_p hed_p (cc fl) (hc fl)
        (cash st + port_val), st).

(** The loop over the dates, with the state after each date kept beside
    the values written at it. *)
Fixpoint replay (prices : DataFrame.t) (trades_by_date : Z -> list tagged)
    (f : fees) (futures_multipliers : dict.t R) (dates : list Z)
    (prev_date : option Z) (st : state) : result (list (entry.t * state)) :=
  match dates with
  | [] => Ok []
  | current_date :: rest =>
      r <- on_date prices trades_by_date f futures_multipliers prev_date
             current_date st ;;
      let '(e, st) := r in
      tail <- replay prices trades_by_date f futures_multipliers rest
                (Some current_date) st ;;
      Ok ((e, st) :: tail)
  end.

(** A row of [pnl_df]. *)
Module row.
Record t : Type := mk {
  date : Z;
  spread_pnl : R;
  inventory_pnl : R;
  hedge_pnl : R;
  client_cost : R;
  hedge_cost : R;
  total_cost : R;
  total_pnl : R;
  equity : R;
  cum_spread_pnl : R;
  cum_inventory_pnl : R;
  cum_hedge_pnl : R;
  cum_total_cost : R;
  cum_total_pnl : R
}.
End row.

(** [cumsum] step: the running sum down a column. *)
Definition running (prev : option row.t) (col : row.t -> R) (x : R) : R :=
  match prev with
  | None => x
  | Some r => col r + x
  end.

(** Lines 156-176: the derived columns, row by row. *)
Fixpoint pack (prev : option row.t) (entries : list entry.t) : list row.t :=
  match entries with
  | [] => []
  | e :: rest =>
      let total_cost := entry.client_cost e + entry.hedge_cost e in
      let total_pnl :=
        entry.spread_pnl e + entry.inventory_pnl e + entry.hedge_pnl e
        - total_cost in
      let r :=
        row.mk (entry.date e) (entry.spread_pnl e) (entry.inventory_pnl e)
          (entry.hedge_pnl e) (entry.client_cost e) (entry.hedge_cost e)
          total_cost total_pnl (entry.equity e)
          (running prev row.cum_spread_pnl (entry.spread_pnl e))
          (running prev row.cum_inventory_pnl (entry.inventory_pnl e))
          (running prev row.cum_hedge_pnl (entry.hedge_pnl e))
          (running prev row.cum_total_cost total_cost)
          (running prev row.cum_total_pnl total_pnl) in
      r :: pack (Some r) rest
  end.

(** The engine with the state after each date beside each row's values. *)
Definition attribution_trace (mm : MarketMaker.t) (prices : DataFrame.t)
    (f : fees) (futures_multipliers : option (dict.t R))
    : result (list (entry.t * state)) :=
  let prices := DataFrame.sort_index prices in
  let dates := DataFrame.index prices in
  let futures_multipliers := multipliers_or_empty futures_multipliers in
  replay prices (group_trades mm) f futures_multipliers dates None
    initial_state.

Definition compute_pnl_with_attribution (mm : MarketMaker.t)
    (prices : DataFrame.t) (f : fees)
    (futures_multipliers : option (dict.t R)) : result (list row.t) :=
  trace <- attribution_trace mm prices f futures_multipliers ;;
  Ok (pack None (map fst trace)).

(** The body of the trade loop of [compute_simple_pnl]: lines 222-255. *)
Definition apply_trade_simple (f : fees) (acc : dict.t R * R) (tr : tagged)
    : dict.t R * R :=
  let '(inventory, cash) := acc in
  let '(ticker, price, signed_vol, cost) :=
    match tr with
    | client tr =>
        let ticker := trades.CompletedTrade.ticker tr in
        let price := trades.CompletedTrade.trade_price tr in
        let vol := trades.CompletedTrade.trade_volume tr in
        let signed_vol :=
          if String.eqb (trades.CompletedTrade.mm_action tr) "buy"
          then vol else - vol in
        (ticker, price, signed_vol,
         transaction_cost vol price (fee_rate_client f)
           (fee_per_unit_client f))
    | hedge tr =>
        let ticker := ETFPosition.ticker tr in
        let price := ETFPosition.trade_price tr in
        let vol := ETFPosition.trade_volume tr in
        let signed_vol :=
          if String.eqb (ETFPosition.action tr) "buy" then vol else - vol in
        (ticker, price, signed_vol,
         transaction_cost vol price (fee_rate_hedge f)
           (fee_per_unit_hedge f))
    end in
  let notional := signed_vol * price in
  let cash := cash - notional in
  let cash := cash - cost in
  (dict.iadd inventory ticker signed_vol, cash).

(** The loop over the dates of [compute_simple_pnl]: lines 220-263. *)
Fixpoint replay_simple (prices : DataFrame.t)
    (trades_by_date : Z -> list tagged) (f : fees) (dates : list Z)
    (inventory : dict.t R) (cash : R) : result (list (Z * R)) :=
  match dates with
  | [] => Ok []
  | current_date :: rest =>
      let '(inventory, cash) :=
        fold_left (apply_trade_simple f) (trades_by_date current_date)
          (inventory, cash) in
      port_val <- value_main prices current_date inventory 0 ;;
      tail <- replay_simple prices trades_by_date f rest inventory cash ;;
      Ok ((current_date, cash + port_val) :: tail)
  end.

(** The equity Series, as its (date, value) items in index order. *)
Definition compute_simple_pnl (mm : MarketMaker.t) (prices : DataFrame.t)
    (f : fees) : result (list (Z * R)) :=
  let prices := DataFrame.sort_index prices in
  let dates := DataFrame.index prices in
  replay_simple prices (group_trades mm) f dates [] 0.

End pnl.


(** ** Notions used to state the properties *)

(** The value of an inventory at unit values [w], over the tickers that
    [cols] accepts: the sum that the loops over [items()] accumulate. *)
Fixpoint weighted (cols : string -> bool) (w : string -> R)
    (inventory : dict.t R) : R :=
  match inventory with
  | [] => 0
  | (ticker, qty) :: rest =>
      (if cols ticker then qty * w ticker else 0) + weighted cols w rest
  end.

Import market_maker.

(** The effect of [pos.position_volume = f(pos.position_volume)] on the
    object itself. *)
Definition bump (f : R -> R) (p : Position.t) : Position.t :=
  Position.mk (Position.ticker p) (f (Position.position_volume p)).

(** The binding of [ticker] in a position map, or the new object that
    [get] builds when there is none. *)
Definition position_or_new (d : dict.t Position.t) (ticker : string)
    : Position.t :=
  match dict.lookup d ticker with
  | Some p => p
  | None => Position.mk ticker 0
  end.

(** Sample ledger inputs. *)
Definition sample_fill (ticker : string) (volume price : R) (action : string)
    (ref : R) (date : Z) : trades.CompletedTrade.t :=
  trades.CompletedTrade.mk ticker volume price action ref (ref - 1) (ref + 1)
    date.

Definition sample_events : list event :=
  [ client_fill (sample_fill "X" 10 99 "buy" 100 1);
    hedge_fill (ExecutedTrade.mk "X" 4 100 "sell" 1);
    client_fill (sample_fill "Y" 3 51 "sell" 50 2) ].

Definition sample_ledger : MarketMaker.t :=
  fst (ingest_all (MarketMaker.init None None) sample_events).


(** Sample venue and price table: two dates, one ticker. *)
Definition sample_prices : DataFrame.t :=
  DataFrame.mk [2%Z; 1%Z] ["X"]
    (fun d _ => if (d =? 1)%Z then 100 else 105).

Import pnl.

(** The mark-to-market value of both books at the prices of date [d]:
    quantity times price over the client inventory plus quantity times
    multiplier times price over the hedge inventory, over the instruments
    that have a column in the price table. *)
Definition book_value (prices : DataFrame.t) (futures_multipliers : dict.t R)
    (d : Z) (st : state) : R :=
  weighted (DataFrame.has_column prices) (DataFrame.values prices d)
    (inventory_main st)
  + weighted (DataFrame.has_column prices)
      (fun ticker =>
         dict.get futures_multipliers ticker 1 * DataFrame.values prices d ticker)
      (inventory_hedge st).

(** What step 1 computes when both dates are in the index. *)
Definition moves (prices : DataFrame.t) (futures_multipliers : dict.t R)
    (prev_date : option Z) (d : Z) (st : state) : R * R :=
  match prev_date with
  | None => (0, 0)
  | Some p =>
      (weighted (DataFrame.has_column prices)
         (fun ticker =>
            DataFrame.values prices d ticker - DataFrame.values prices p ticker)
         (inventory_main st),
       weighted (DataFrame.has_column prices)
         (fun ticker =>
            dict.get futures_multipliers ticker 1
            * (DataFrame.values prices d ticker
               - DataFrame.values prices p ticker))
         (inventory_hedge st))
  end.

(** What one date writes and carries forward when no lookup fails. *)
Definition on_date_value (prices : DataFrame.t)
    (trades_by_date : Z -> list tagged) (f : fees)
    (futures_multipliers : dict.t R) (prev_date : option Z) (d : Z)
    (st : state) : entry.t * state :=
  let mv := moves prices futures_multipliers prev_date d st in
  let after := fold_left (apply_trade f) (trades_by_date d) (st, mk_flow 0 0 0) in
  (entry.mk d (sp (snd after)) (fst mv) (snd mv) (cc (snd after))
     (hc (snd after))
     (cash (fst after)
      + book_value prices futures_multipliers d (fst after)),
   fst after).

Fixpoint replay_value (prices : DataFrame.t)
    (trades_by_date : Z -> list tagged) (f : fees)
    (futures_multipliers : dict.t R) (dates : list Z) (prev_date : option Z)
    (st : state) : list (entry.t * state) :=
  match dates with
  | [] => []
  | d :: rest =>
      let r := on_date_value prices trades_by_date f futures_multipliers
                 prev_date d st in
      r :: replay_value prices trades_by_date f futures_multipliers rest
             (Some d) (snd r)
  end.

(** The same for the equity-only engine. *)
Fixpoint replay_simple_value (prices : DataFrame.t)
    (trades_by_date : Z -> list tagged) (f : fees) (dates : list Z)
    (inventory : dict.t R) (cash : R) : list (Z * R) :=
  match dates with
  | [] => []
  | d :: rest =>
      let after :=
        fold_left (apply_trade_simple f) (trades_by_date d) (inventory, cash) in
      (d, snd after
          + weighted (DataFrame.has_column prices) (DataFrame.values prices d)
              (fst after))
      :: replay_simple_value prices trades_by_date f rest (fst after)
           (snd after)
  end.

(** An inventory without the entry of one instrument. *)
Definition without (ticker : string) (inventory : dict.t R) : dict.t R :=
  filter (fun '(k, _) => negb (String.eqb k ticker)) inventory.


Definition no_fees : fees := mk_fees 0 0 0 0.

(** A state without the entries of one instrument in either book. *)
Definition state_without (ticker : string) (st : state) : state :=
  mk_state (without ticker (inventory_main st))
    (without ticker (inventory_hedge st)) (cash st).

(** The (date, equity) items of the attribution table. *)
Definition equity_column (table : list row.t) : list (Z * R) :=
  map (fun r => (row.date r, row.equity r)) table.

(** A ledger whose only client trade was quoted off the table's price:
    a buy of 10 X at 99 against a reference of 50, the table showing 100. *)
Definition off_market_ledger : MarketMaker.t :=
  fst (MarketMaker.add_trade (MarketMaker.init None None)
         (sample_fill "X" 10 99 "buy" 50 1)).

(** A ledger priced at the table: a buy of 10 X at 99 against the table's
    100, hedged by a sale of 10 X at 100, both on date 1. *)
Definition on_market_ledger : MarketMaker.t :=
  fst (ingest_all (MarketMaker.init None None)
         [ client_fill (sample_fill "X" 10 99 "buy" 100 1);
           hedge_fill (ExecutedTrade.mk "X" 10 100 "sell" 1) ]).

From Stdlib Require Import Lia.

(** ** The ledger's logs *)

(** The record that [update_ETF_position] logs for an execution report. *)
Definition as_ETFPosition (executed_trade : ExecutedTrade.t) : ETFPosition.t :=
  ETFPosition.mk (ExecutedTrade.ticker executed_trade)
    (ExecutedTrade.trade_volume executed_trade)
    (ExecutedTrade.trade_price executed_trade)
    (ExecutedTrade.action executed_trade)
    (ExecutedTrade.date executed_trade).

(** The client fills among some events, in order. *)
Fixpoint client_fills (events : list event) : list trades.CompletedTrade.t :=
  match events with
  | [] => []
  | client_fill trade :: rest => trade :: client_fills rest
  | hedge_fill _ :: rest => client_fills rest
  end.

(** The records logged for the execution reports among some events. *)
Fixpoint hedge_fills (events : list event) : list ETFPosition.t :=
  match events with
  | [] => []
  | client_fill _ :: rest => hedge_fills rest
  | hedge_fill executed_trade :: rest =>
      as_ETFPosition executed_trade :: hedge_fills rest
  end.

(** What a rejected event has added to [completed_trades]. *)
Definition logged_on_rejection (e : event) : list trades.CompletedTrade.t :=
  match e with
  | client_fill trade => [trade]
  | hedge_fill _ => []
  end.

Definition sample_quote : trades.QuotedTrade.t :=
  trades.QuotedTrade.mk "X" 10 100 99 101 1.

(** ** The engine's view of the ledger *)

(** Dates in ascending order. *)
Fixpoint ascending (l : list Z) : Prop :=
  match l with
  | [] => True
  | a :: rest =>
      match rest with
      | [] => True
      | b :: _ => (a <= b)%Z /\ ascending rest
      end
  end.

(** The action under which the engine books a trade: lines 97 and 123
    test for 'buy' only. *)
Definition booked_action (a : string) : string :=
  if String.eqb a "buy" then "buy" else "sell".

Definition booked_client (ct : trades.CompletedTrade.t)
    : trades.CompletedTrade.t :=
  trades.CompletedTrade.mk (trades.CompletedTrade.ticker ct)
    (trades.CompletedTrade.trade_volume ct)
    (trades.CompletedTrade.trade_price ct)
    (booked_action (trades.CompletedTrade.mm_action ct))
    (trades.CompletedTrade.ref_price ct)
    (trades.CompletedTrade.bid_price ct)
    (trades.CompletedTrade.offer_price ct)
    (trades.CompletedTrade.date ct).

Definition booked_hedge (ht : ETFPosition.t) : ETFPosition.t :=
  ETFPosition.mk (ETFPosition.ticker ht) (ETFPosition.trade_volume ht)
    (ETFPosition.trade_price ht) (booked_action (ETFPosition.action ht))
    (ETFPosition.date ht).

(** The ledger with every logged action replaced by the one it is booked
    under. *)
Definition booked (mm : MarketMaker.t) : MarketMaker.t :=
  MarketMaker.mk (MarketMaker.quoted_trades mm)
    (map booked_client (MarketMaker.completed_trades mm))
    (MarketMaker.current_positions mm)
    (map booked_hedge (MarketMaker.ETF_positions mm)).

(** The ledger without the logged trades whose date is not a label of the
    price table. *)
Definition dated_in_table (prices : DataFrame.t) (mm : MarketMaker.t)
    : MarketMaker.t :=
  MarketMaker.mk (MarketMaker.quoted_trades mm)
    (filter (fun ct => DataFrame.has_index prices (trades.CompletedTrade.date ct))
       (MarketMaker.completed_trades mm))
    (MarketMaker.current_positions mm)
    (filter (fun ht => DataFrame.has_index prices (ETFPosition.date ht))
       (MarketMaker.ETF_positions mm)).

Definition sample_fees : fees := mk_fees (1 / 1000) (2 / 1000) (1 / 100) 0.

Definition booked_tagged (tr : tagged) : tagged :=
  match tr with
  | client ct => client (booked_client ct)
  | hedge ht => hedge (booked_hedge ht)
  end.

(** A row computed with fees against the row of the same date computed
    without: the same flows, no cost in the fee-free row, and a total_pnl
    lower by the row's costs. *)
Definition differs_by_costs (r r0 : row.t) : Prop :=
  row.date r = row.date r0 /\
  row.spread_pnl r = row.spread_pnl r0 /\
  row.inventory_pnl r = row.inventory_pnl r0 /\
  row.hedge_pnl r = row.hedge_pnl r0 /\
  row.total_cost r0 = 0 /\
  row.total_pnl r = row.total_pnl r0 - row.total_cost r.

(** ** Hedging through the venue *)



(** A multiplier table all of whose entries are 1. *)
Definition unit_multipliers : dict.t R := [("X", 1); ("YM=F", 1)].

(** ** trading/hedge_fund.py *)

Module hedge_fund.

Module HfResponse.
(** [trade_price] is [None] where the code stores [np.nan]. *)
Record t : Type := mk {
  ticker : string;
  trade_volume : R;
  trade_price : option R;
  hf_action : string;
  ref_price : R;
  bid_price : R;
  offer_price : R;
  date : Z
}.
End HfResponse.

Module HedgeFund.
(** The generator [rng] is not part of the record: each draw is passed to
    [show]. *)
Record t : Type := mk {
  buy_prob : R;
  sell_prob : R;
  refuse_prob : R
}.

Definition init (buy_prob sell_prob : R) : t :=
  mk buy_prob sell_prob (1 - buy_prob - sell_prob).

End HedgeFund.

End hedge_fund.

(** ** utils/visu.py *)

Module visu.

Module quote_record.
Record t : Type := mk {
  date : Z;
  ref_price : R;
  bid_price : R;
  offer_price : R
}.
End quote_record.

Module inventory_record.
Record t : Type := mk {
  date : Z;
  inventory_volume : R;
  inventory_value : R
}.
End inventory_record.

(** Lines 16-23: the loop over [mm.quoted_trades]. *)
Fixpoint quote_records (ticker_to_plot : string)
    (quoted_trades : list trades.QuotedTrade.t)
    (records : list quote_record.t) : list quote_record.t :=
  match quoted_trades with
  | [] => records
  | qt :: rest =>
      if String.eqb (trades.QuotedTrade.ticker qt) ticker_to_plot
      then
        quote_records ticker_to_plot rest
          (records
           ++ [quote_record.mk (trades.QuotedTrade.date qt)
                 (trades.QuotedTrade.ref_price qt)
                 (trades.QuotedTrade.bid_price qt)
                 (trades.QuotedTrade.offer_price qt)])
      else quote_records ticker_to_plot rest records
  end.

(** Lines 43-46 and 73-76: the update of [running_inventory]; an action
    that is neither 'buy' nor 'sell' leaves it as it is. *)
Definition running_step (running_inventory : R) (action : string)
    (trade_volume : R) : R :=
  if String.eqb action "buy" then running_inventory + trade_volume
  else if String.eqb action "sell" then running_inventory - trade_volume
  else running_inventory.

(** Lines 41-52: the loop over [mm.completed_trades]. *)
Fixpoint inventory_records (ticker_to_plot : string)
    (completed_trades : list trades.CompletedTrade.t)
    (running_inventory : R) (records_inv : list inventory_record.t)
    : list inventory_record.t :=
  match completed_trades with
  | [] => records_inv
  | ct :: rest =>
      if String.eqb (trades.CompletedTrade.ticker ct) ticker_to_plot
      then
        let running_inventory :=
          running_step running_inventory (trades.CompletedTrade.mm_action ct)
            (trades.CompletedTrade.trade_volume ct) in
        inventory_records ticker_to_plot rest running_inventory
          (records_inv
           ++ [inventory_record.mk (trades.CompletedTrade.date ct)
                 running_inventory
                 (running_inventory * trades.CompletedTrade.trade_price ct)])
      else inventory_records ticker_to_plot rest running_inventory records_inv
  end.

(** Lines 71-82: the loop over [mm.ETF_positions]. *)
Fixpoint ETF_inventory_records (ticker_to_plot : string)
    (ETF_positions : list ETFPosition.t) (running_inventory : R)
    (records_inv : list inventory_record.t) : list inventory_record.t :=
  match ETF_positions with
  | [] => records_inv
  | ct :: rest =>
      if String.eqb (ETFPosition.ticker ct) ticker_to_plot
      then
        let running_inventory :=
          running_step running_inventory (ETFPosition.action ct)
            (ETFPosition.trade_volume ct) in
        ETF_inventory_records ticker_to_plot rest running_inventory
          (records_inv
           ++ [inventory_record.mk (ETFPosition.date ct) running_inventory
                 (running_inventory * ETFPosition.trade_price ct)])
      else
        ETF_inventory_records ticker_to_plot rest running_inventory
          records_inv
  end.

Section Frames.

(** [df.sort_values("date")]: pandas sorts with a sort that need not be
    stable, so the order it gives to rows of equal date is left open. *)
Variable sort_values : forall A : Type, (A -> Z) -> list A -> list A.

(** [pd.DataFrame(records).sort_values("date").set_index("date")]: a frame
    built from no record has no 'date' column to sort by. *)
Definition frame {A : Type} (date : A -> Z) (records : list A)
    : result (list A) :=
  match records with
  | [] => Raise KeyError
  | _ :: _ => Ok (sort_values A date records)
  end.

Definition get_quotes_df (mm : MarketMaker.t) (ticker_to_plot : string)
    : result (list quote_record.t) :=
  let records :=
    quote_records ticker_to_plot (MarketMaker.quoted_trades mm) [] in
  frame quote_record.date records.

Definition get_inventory_df (mm : MarketMaker.t) (ticker_to_plot : string)
    : result (list inventory_record.t) :=
  let records_inv :=
    inventory_records ticker_to_plot (MarketMaker.completed_trades mm) 0 [] in
  frame inventory_record.date records_inv.

Definition get_ETF_inventory_df (mm : MarketMaker.t) (ticker_to_plot : string)
    : result (list inventory_record.t) :=
  let records_inv :=
    ETF_inventory_records ticker_to_plot (MarketMaker.ETF_positions mm) 0 [] in
  frame inventory_record.date records_inv.

End Frames.

End visu.

(** ** Notions for the reporting helpers *)

(** The running inventory after some client trades. *)
Definition client_running (l : list trades.CompletedTrade.t) : R :=
  fold_left
    (fun run ct =>
       visu.running_step run (trades.CompletedTrade.mm_action ct)
         (trades.CompletedTrade.trade_volume ct))
    l 0.

(** The running inventory after some hedge trades. *)
Definition hedge_running (l : list ETFPosition.t) : R :=
  fold_left
    (fun run ht =>
       visu.running_step run (ETFPosition.action ht)
         (ETFPosition.trade_volume ht))
    l 0.

(** The logged trades of one instrument, in log order. *)
Definition client_trades_of (ticker : string) (mm : MarketMaker.t)
    : list trades.CompletedTrade.t :=
  filter (fun ct => String.eqb (trades.CompletedTrade.ticker ct) ticker)
    (MarketMaker.completed_trades mm).

Definition hedge_trades_of (ticker : string) (mm : MarketMaker.t)
    : list ETFPosition.t :=
  filter (fun ht => String.eqb (ETFPosition.ticker ht) ticker)
    (MarketMaker.ETF_positions mm).

Definition quotes_of (ticker : string) (mm : MarketMaker.t)
    : list trades.QuotedTrade.t :=
  filter (fun qt => String.eqb (trades.QuotedTrade.ticker qt) ticker)
    (MarketMaker.quoted_trades mm).

(** A ledger whose logs are not in date order: two quotes, two client
    trades and two hedge trades of X, the later date logged first. *)
Definition reported_ledger : MarketMaker.t :=
  fst (ingest_all
         (fst (MarketMaker.add_quoted_trade
                 (fst (MarketMaker.add_quoted_trade
                         (MarketMaker.init None None)
                         (trades.QuotedTrade.mk "X" 10 105 104 106 2)))
                 sample_quote))
         [ client_fill (sample_fill "X" 2 104 "sell" 105 2);
           client_fill (sample_fill "X" 10 99 "buy" 100 1);
           hedge_fill (ExecutedTrade.mk "X" 2 105 "buy" 2);
           hedge_fill (ExecutedTrade.mk "X" 10 100 "sell" 1) ]).

(** A sort by date, to instantiate [sort_values]. *)
Fixpoint insert_by_date {A : Type} (date : A -> Z) (x : A) (l : list A)
    : list A :=
  match l with
  | [] => [x]
  | y :: rest =>
      if (date x <=? date y)%Z then x :: l
      else y :: insert_by_date date x rest
  end.

Definition sort_by_date (A : Type) (date : A -> Z) (l : list A) : list A :=
  fold_right (insert_by_date date) [] l.
(** * The same code on binary64 numbers

    The embedding above reads a Python [float] as a real number. The
    properties that depend on rounding are stated on this second embedding
    of the ledger, of the skewed quote and of the two engines, where a
    [float] is an IEEE-754 binary64 number with the operations of the
    processor (round to nearest, ties to even): the text of each function
    is the same, the arithmetic is [PrimFloat]'s. *)

From Stdlib Require Import PrimFloat.

Module binary64.

#[local] Open Scope float_scope.

(** [d[k] += v] on a [defaultdict(float)] *)
Definition iadd (d : dict.t float) (k : string) (v : float) : dict.t float :=
  dict.setitem d k (dict.get d k 0 + v).

Module Series.

Record t : Type := mk { labels : list string; data : string -> float }.

(** [s1 - s2] for two rows of one frame (same labels) *)
Definition sub (s1 s2 : t) : t :=
  mk (labels s1) (fun c => data s1 c - data s2 c).

(** [s.get(c, default)] *)
Definition get (s : t) (c : string) (default : float) : float :=
  if mem_string c (labels s) then data s c else default.

End Series.

Module DataFrame.

Record t : Type := mk {
  index : list Z;
  columns : list string;
  values : Z -> string -> float
}.

(** [c in df.columns] *)
Definition has_column (df : t) (c : string) : bool :=
  mem_string c (columns df).

Definition has_index (df : t) (d : Z) : bool :=
  mem_Z d (index df).

(** [df.sort_index()] *)
Definition sort_index (df : t) : t :=
  mk (sort_dates (index df)) (columns df) (values df).

(** [df.loc[d]]: the row at date [d], [KeyError] when [d] is no label *)
Definition loc_row (df : t) (d : Z) : result Series.t :=
  if has_index df d then Ok (Series.mk (columns df) (values df d))
  else Raise KeyError.

(** [df.loc[d, c]]: one cell, [KeyError] on a missing date or ticker *)
Definition loc (df : t) (d : Z) (c : string) : result float :=
  if has_index df d && has_column df c then Ok (values df d c)
  else Raise KeyError.

End DataFrame.

Module trades.

Module QuotedTrade.
Record t : Type := mk {
  ticker : string;
  trade_volume : float;
  ref_price : float;
  bid_price : float;
  offer_price : float;
  date : Z
}.

(** The dataclass-generated [__init__]: it stores its arguments. *)
Definition init (ticker : string) (trade_volume ref_price bid_price
    offer_price : float) (date : Z) : result t :=
  Ok (mk ticker trade_volume ref_price bid_price offer_price date).
End QuotedTrade.

Module CompletedTrade.
Record t : Type := mk {
  ticker : string;
  trade_volume : float;
  trade_price : float;
  mm_action : string;
  ref_price : float;
  bid_price : float;
  offer_price : float;
  date : Z
}.

Definition init (ticker : string) (trade_volume trade_price : float)
    (mm_action : string) (ref_price bid_price offer_price : float)
    (date : Z) : result t :=
  Ok (mk ticker trade_volume trade_price mm_action ref_price bid_price
         offer_price date).
End CompletedTrade.

End trades.

Module market_maker.

Module Position.
Record t : Type := mk { ticker : string; position_volume : float }.
End Position.

Module ETFPosition.
Record t : Type := mk {
  ticker : string;
  trade_volume : float;
  trade_price : float;
  action : string;
  date : Z
}.

Definition init (ticker : string) (trade_volume trade_price : float)
    (action : string) (date : Z) : result t :=
  Ok (mk ticker trade_volume trade_price action date).
End ETFPosition.

Module ExecutedTrade.
Record t : Type := mk {
  ticker : string;
  trade_volume : float;
  trade_price : float;
  action : string;
  date : Z
}.

Definition init (ticker : string) (trade_volume trade_price : float)
    (action : string) (date : Z) : result t :=
  Ok (mk ticker trade_volume trade_price action date).
End ExecutedTrade.

(** The strings the methods return, kept as structured values (float and
    timestamp formatting is not modelled). *)
Inductive message : Type :=
| QuotedTradeAdded (ticker : string) (date : Z)
| CompletedTradeLogged (mm_action : string) (trade_volume : float)
    (ticker : string) (trade_price : float)
| HedgeLogged (action : string) (trade_volume : float) (ticker : string)
    (trade_price : float).

(** A [Position] is a mutable object. The local variable [pos] of
    [add_trade] either aliases the object held by [current_positions]
    under a key, so that mutating it mutates the map at once, or is a new
    object that the map does not hold yet. *)
Inductive pos_ref : Type :=
| Stored (key : string)
| Fresh (p : Position.t).

(** [current_positions.get(ticker, Position(ticker, 0.0))] *)
Definition positions_get (current_positions : dict.t Position.t)
    (ticker : string) : pos_ref :=
  if dict.contains current_positions ticker then Stored ticker
  else Fresh (Position.mk ticker 0).

(** [pos.position_volume = f(pos.position_volume)] through a reference *)
Fixpoint mutate_stored (current_positions : dict.t Position.t)
    (key : string) (f : float -> float) : dict.t Position.t :=
  match current_positions with
  | [] => []
  | (k, p) :: rest =>
      if String.eqb k key
      then (k, Position.mk (Position.ticker p)
                 (f (Position.position_volume p))) :: rest
      else (k, p) :: mutate_stored rest key f
  end.

Definition mutate (current_positions : dict.t Position.t) (pos : pos_ref)
    (f : float -> float) : dict.t Position.t * pos_ref :=
  match pos with
  | Stored key => (mutate_stored current_positions key f, pos)
  | Fresh p =>
      (current_positions,
       Fresh (Position.mk (Position.ticker p)
                (f (Position.position_volume p))))
  end.

(** [current_positions[ticker] = pos] *)
Definition positions_store (current_positions : dict.t Position.t)
    (ticker : string) (pos : pos_ref) : dict.t Position.t :=
  match pos with
  | Stored key =>
      match dict.lookup current_positions key with
      | Some p => dict.setitem current_positions ticker p
      | None => current_positions
      end
  | Fresh p => dict.setitem current_positions ticker p
  end.

Module MarketMaker.
Record t : Type := mk {
  quoted_trades : list trades.QuotedTrade.t;
  completed_trades : list trades.CompletedTrade.t;
  current_positions : dict.t Position.t;
  ETF_positions : list ETFPosition.t
}.

(** [x if x else []] on an optional list *)
Definition or_empty {A : Type} (l : option (list A)) : list A :=
  match l with
  | Some (x :: l') => x :: l'
  | _ => []
  end.

Definition init (quoted_trades : option (list trades.QuotedTrade.t))
    (completed_trades : option (list trades.CompletedTrade.t)) : t :=
  mk (or_empty quoted_trades) (or_empty completed_trades) [] [].

Definition mm := init.

Definition add_quoted_trade (self : t) (trade : trades.QuotedTrade.t)
    : t * result message :=
  let self := mk (quoted_trades self ++ [trade]) (completed_trades self)
                 (current_positions self) (ETF_positions self) in
  (self, Ok (QuotedTradeAdded (trades.QuotedTrade.ticker trade)
               (trades.QuotedTrade.date trade))).

Definition add_trade (self : t) (trade : trades.CompletedTrade.t)
    : t * result message :=
  let ticker := trades.CompletedTrade.ticker trade in
  let mm_action := trades.CompletedTrade.mm_action trade in
  let trade_volume := trades.CompletedTrade.trade_volume trade in
  let self := mk (quoted_trades self) (completed_trades self ++ [trade])
                 (current_positions self) (ETF_positions self) in
  let pos := positions_get (current_positions self) ticker in
  if String.eqb mm_action "buy" then
    let '(positions, pos) :=
      mutate (current_positions self) pos (fun v => v + trade_volume) in
    (mk (quoted_trades self) (completed_trades self)
        (positions_store positions ticker pos) (ETF_positions self),
     Ok (CompletedTradeLogged mm_action trade_volume ticker
           (trades.CompletedTrade.trade_price trade)))
  else if String.eqb mm_action "sell" then
    let '(positions, pos) :=
      mutate (current_positions self) pos (fun v => v - trade_volume) in
    (mk (quoted_trades self) (completed_trades self)
        (positions_store positions ticker pos) (ETF_positions self),
     Ok (CompletedTradeLogged mm_action trade_volume ticker
           (trades.CompletedTrade.trade_price trade)))
  else
    (self, Raise (ValueError ("Unknown mm_action: " ++ mm_action))).

Definition update_ETF_position (self : t) (executed_trade : ExecutedTrade.t)
    : t * result message :=
  let ticker := ExecutedTrade.ticker executed_trade in
  let action := ExecutedTrade.action executed_trade in
  let trade_volume := ExecutedTrade.trade_volume executed_trade in
  let trade_price := ExecutedTrade.trade_price executed_trade in
  let pos := positions_get (current_positions self) ticker in
  let log (positions : dict.t Position.t) (pos : pos_ref) :=
    let etf_pos := ETFPosition.mk ticker trade_volume trade_price action
                     (ExecutedTrade.date executed_trade) in
    (mk (quoted_trades self) (completed_trades self)
        (positions_store positions ticker pos)
        (ETF_positions self ++ [etf_pos]),
     Ok (HedgeLogged action trade_volume ticker trade_price)) in
  if String.eqb action "buy" then
    let '(positions, pos) :=
      mutate (current_positions self) pos (fun v => v + trade_volume) in
    log positions pos
  else if String.eqb action "sell" then
    let '(positions, pos) :=
      mutate (current_positions self) pos (fun v => v - trade_volume) in
    log positions pos
  else
    (self, Raise (ValueError ("Unknown action " ++ action))).

End MarketMaker.

(** A trade event handed to the ledger: a client fill for [add_trade] or
    an execution report for [update_ETF_position]. *)
Inductive event : Type :=
| client_fill (trade : trades.CompletedTrade.t)
| hedge_fill (executed_trade : ExecutedTrade.t).

Definition ingest (self : MarketMaker.t) (e : event)
    : MarketMaker.t * result message :=
  match e with
  | client_fill trade => MarketMaker.add_trade self trade
  | hedge_fill executed_trade =>
      MarketMaker.update_ETF_position self executed_trade
  end.

(** Successive calls; the first exception stops the caller. *)
Fixpoint ingest_all (self : MarketMaker.t) (events : list event)
    : MarketMaker.t * result unit :=
  match events with
  | [] => (self, Ok tt)
  | e :: rest =>
      match ingest self e with
      | (self', Ok _) => ingest_all self' rest
      | (self', Raise exn) => (self', Raise exn)
      end
  end.

Definition event_ticker (e : event) : string :=
  match e with
  | client_fill trade => trades.CompletedTrade.ticker trade
  | hedge_fill executed_trade => ExecutedTrade.ticker executed_trade
  end.

Definition event_action (e : event) : string :=
  match e with
  | client_fill trade => trades.CompletedTrade.mm_action trade
  | hedge_fill executed_trade => ExecutedTrade.action executed_trade
  end.

Definition event_volume (e : event) : float :=
  match e with
  | client_fill trade => trades.CompletedTrade.trade_volume trade
  | hedge_fill executed_trade => ExecutedTrade.trade_volume executed_trade
  end.

Definition valid_action (a : string) : bool :=
  String.eqb a "buy" || String.eqb a "sell".

Definition traded (ticker : string) (events : list event) : bool :=
  existsb (fun e => String.eqb (event_ticker e) ticker) events.

End market_maker.

Module quotes.

(** [a / b] on two Python [float]s: a zero divisor, of either sign, raises
    ZeroDivisionError. *)
Definition truediv (a b : float) : result float :=
  if PrimFloat.eqb b 0 then Raise ZeroDivisionError else Ok (a / b).

Section Tanh.

(** [np.tanh] belongs to numpy: the embedding takes it as a function on
    binary64 numbers and says nothing more of it. *)
Variable tanh : float -> float.

Definition skewed_quote (current_price base_spread inventory
    inventory_ideal_size sensitivity max_skew : float)
    : result (float * float) :=
  raw_skew <- truediv (sensitivity * inventory) inventory_ideal_size ;;
  let skew := current_price * max_skew * tanh raw_skew in
  let spread := current_price * base_spread in
  let bid_price := current_price + skew - spread / 2 in
  let offer_price := current_price + skew + spread / 2 in
  Ok (bid_price, offer_price).

End Tanh.

End quotes.

Module pnl.

Import market_maker.

Definition transaction_cost (volume price fee_rate fee_per_unit : float) : float :=
  let notional := abs volume * price in
  fee_rate * notional + fee_per_unit * abs volume.

(** An entry of [trades_by_date]: the tag and the trade. *)
Inductive tagged : Type :=
| client (ct : trades.CompletedTrade.t)
| hedge (ht : ETFPosition.t).

(** [trades_by_date] is a [defaultdict(list)] keyed by date. *)
Definition append_at (trades_by_date : Z -> list tagged) (d : Z) (x : tagged)
    : Z -> list tagged :=
  fun d' => if (d' =? d)%Z then trades_by_date d' ++ [x] else trades_by_date d'.

Definition group_trades (mm : MarketMaker.t) : Z -> list tagged :=
  let trades_by_date := fun _ => [] in
  let trades_by_date :=
    fold_left (fun tbd ct => append_at tbd (trades.CompletedTrade.date ct)
                               (client ct))
      (MarketMaker.completed_trades mm) trades_by_date in
  fold_left (fun tbd ht => append_at tbd (ETFPosition.date ht) (hedge ht))
    (MarketMaker.ETF_positions mm) trades_by_date.

(** The fee arguments shared by both engines. *)
Record fees : Type := mk_fees {
  fee_rate_client : float;
  fee_rate_hedge : float;
  fee_per_unit_client : float;
  fee_per_unit_hedge : float
}.

(** The state carried from one date to the next. *)
Record state : Type := mk_state {
  inventory_main : dict.t float;
  inventory_hedge : dict.t float;
  cash : float
}.

Definition initial_state : state := mk_state [] [] 0.

(** The per-date accumulators [sp], [cc] and [hc]. *)
Record flow : Type := mk_flow { sp : float; cc : float; hc : float }.

(** The values stored into the six Series at one date. *)
Module entry.
Record t : Type := mk {
  date : Z;
  spread_pnl : float;
  inventory_pnl : float;
  hedge_pnl : float;
  client_cost : float;
  hedge_cost : float;
  equity : float
}.
End entry.

(** [futures_multipliers or {}] *)
Definition multipliers_or_empty (futures_multipliers : option (dict.t float))
    : dict.t float :=
  match futures_multipliers with
  | Some (x :: d) => x :: d
  | _ => []
  end.

(** Step 1, client book: lines 71-74. *)
Definition inventory_move (prices : DataFrame.t) (dP : Series.t)
    (inventory_main : dict.t float) : float :=
  fold_left
    (fun inv_p '(ticker, qty) =>
       if DataFrame.has_column prices ticker
       then inv_p + qty * Series.get dP ticker 0
       else inv_p)
    inventory_main 0.

(** Step 1, hedge book: lines 77-81. *)
Definition hedge_move (prices : DataFrame.t) (dP : Series.t)
    (futures_multipliers : dict.t float) (inventory_hedge : dict.t float) : float :=
  fold_left
    (fun hed_p '(ticker, qty) =>
       if DataFrame.has_column prices ticker
       then
         let mult := dict.get futures_multipliers ticker 1 in
         hed_p + qty * mult * Series.get dP ticker 0
       else hed_p)
    inventory_hedge 0.

(** Step 1: lines 67-84; without a previous date the two Series keep their
    initial 0.0. *)
Definition price_move (prices : DataFrame.t) (futures_multipliers : dict.t float)
    (prev_date : option Z) (current_date : Z) (st : state) : result (float * float) :=
  match prev_date with
  | None => Ok (0, 0)
  | Some prev =>
      cur_row <- DataFrame.loc_row prices current_date ;;
      prev_row <- DataFrame.loc_row prices prev ;;
      let dP := Series.sub cur_row prev_row in
      Ok (inventory_move prices dP (inventory_main st),
          hedge_move prices dP futures_multipliers (inventory_hedge st))
  end.

(** Step 2, the body of the loop over the trades of one date: lines 91-136. *)
Definition apply_trade (f : fees) (acc : state * flow) (tr : tagged)
    : state * flow :=
  let '(st, fl) := acc in
  match tr with
  | client tr =>
      let ticker := trades.CompletedTrade.ticker tr in
      let price := trades.CompletedTrade.trade_price tr in
      let vol := trades.CompletedTrade.trade_volume tr in
      let signed_vol :=
        if String.eqb (trades.CompletedTrade.mm_action tr) "buy"
        then vol else - vol in
      let mid := trades.CompletedTrade.ref_price tr in
      let sp := sp fl + (mid - price) * signed_vol in
      let cost := transaction_cost vol price (fee_rate_client f)
                    (fee_per_unit_client f) in
      let cc := cc fl + cost in
      let notional := signed_vol * price in
      let cash := cash st - notional in
      let cash := cash - cost in
      (mk_state (iadd (inventory_main st) ticker signed_vol)
         (inventory_hedge st) cash,
       mk_flow sp cc (hc fl))
  | hedge tr =>
      let ticker := ETFPosition.ticker tr in
      let price := ETFPosition.trade_price tr in
      let vol := ETFPosition.trade_volume tr in
      let signed_vol :=
        if String.eqb (ETFPosition.action tr) "buy" then vol else - vol in
      let cost := transaction_cost vol price (fee_rate_hedge f)
                    (fee_per_unit_hedge f) in
      let hc := hc fl + cost in
      let notional := signed_vol * price in
      let cash := cash st - notional in
      let cash := cash - cost in
      (mk_state (inventory_main st)
         (iadd (inventory_hedge st) ticker signed_vol) cash,
       mk_flow (sp fl) (cc fl) hc)
  end.

(** A monadic left fold: a [for] loop whose body may raise. *)
Fixpoint for_each {A B : Type} (body : A -> B -> result A) (l : list B)
    (a : A) : result A :=
  match l with
  | [] => Ok a
  | x :: l' => a' <- body a x ;; for_each body l' a'
  end.

(** Step 3, client book: lines 144-146. *)
Definition value_main (prices : DataFrame.t) (current_date : Z)
    (inventory_main : dict.t float) (port_val : float) : result float :=
  for_each
    (fun port_val '(ticker, qty) =>
       if DataFrame.has_column prices ticker
       then p <- DataFrame.loc prices current_date ticker ;;
            Ok (port_val + qty * p)
       else Ok port_val)
    inventory_main port_val.

(** Step 3, hedge book: lines 147-150. *)
Definition value_hedge (prices : DataFrame.t) (current_date : Z)
    (futures_multipliers : dict.t float) (inventory_hedge : dict.t float)
    (port_val : float) : result float :=
  for_each
    (fun port_val '(ticker, qty) =>
       if DataFrame.has_column prices ticker
       then
         let mult := dict.get futures_multipliers ticker 1 in
         p <- DataFrame.loc prices current_date ticker ;;
         Ok (port_val + qty * mult * p)
       else Ok port_val)
    inventory_hedge port_val.

(** Step 3: lines 143-150. *)
Definition mark_to_market (prices : DataFrame.t) (futures_multipliers : dict.t float)
    (current_date : Z) (st : state) : result float :=
  port_val <- value_main prices current_date (inventory_main st) 0 ;;
  value_hedge prices current_date futures_multipliers (inventory_hedge st)
    port_val.

(** One iteration of the loop over the dates: lines 65-153. It returns the
    values written at [current_date] and the state carried forward. *)
Definition on_date (prices : DataFrame.t) (trades_by_date : Z -> list tagged)
    (f : fees) (futures_multipliers : dict.t float) (prev_date : option Z)
    (current_date : Z) (st : state) : result (entry.t * state) :=
  moves <- price_move prices futures_multipliers prev_date current_date st ;;
  let '(inv_p, hed_p) := moves in
  let '(st, fl) :=
    fold_left (apply_trade f) (trades_by_date current_date)
      (st, mk_flow 0 0 0) in
  port_val <- mark_to_market prices futures_multipliers current_date st ;;
  Ok (entry.mk current_date (sp fl) inv_p hed_p (cc fl) (hc fl)
        (cash st + port_val), st).

(** The loop over the dates, with the state after each date kept beside
    the values written at it. *)
Fixpoint replay (prices : DataFrame.t) (trades_by_date : Z -> list tagged)
    (f : fees) (futures_multipliers : dict.t float) (dates : list Z)
    (prev_date : option Z) (st : state) : result (list (entry.t * state)) :=
  match dates with
  | [] => Ok []
  | current_date :: rest =>
      r <- on_date prices trades_by_date f futures_multipliers prev_date
             current_date st ;;
      let '(e, st) := r in
      tail <- replay prices trades_by_date f futures_multipliers rest
                (Some current_date) st ;;
      Ok ((e, st) :: tail)
  end.

(** A row of [pnl_df]. *)
Module row.
Record t : Type := mk {
  date : Z;
  spread_pnl : float;
  inventory_pnl : float;
  hedge_pnl : float;
  client_cost : float;
  hedge_cost : float;
  total_cost : float;
  total_pnl : float;
  equity : float;
  cum_spread_pnl : float;
  cum_inventory_pnl : float;
  cum_hedge_pnl : float;
  cum_total_cost : float;
  cum_total_pnl : float
}.
End row.

(** [cumsum] step: the running sum down a column. *)
Definition running (prev : option row.t) (col : row.t -> float) (x : float) : float :=
  match prev with
  | None => x
  | Some r => col r + x
  end.

(** Lines 156-176: the derived columns, row by row. *)
Fixpoint pack (prev : option row.t) (entries : list entry.t) : list row.t :=
  match entries with
  | [] => []
  | e :: rest =>
      let total_cost := entry.client_cost e + entry.hedge_cost e in
      let total_pnl :=
        entry.spread_pnl e + entry.inventory_pnl e + entry.hedge_pnl e
        - total_cost in
      let r :=
        row.mk (entry.date e) (entry.spread_pnl e) (entry.inventory_pnl e)
          (entry.hedge_pnl e) (entry.client_cost e) (entry.hedge_cost e)
          total_cost total_pnl (entry.equity e)
          (running prev row.cum_spread_pnl (entry.spread_pnl e))
          (running prev row.cum_inventory_pnl (entry.inventory_pnl e))
          (running prev row.cum_hedge_pnl (entry.hedge_pnl e))
          (running prev row.cum_total_cost total_cost)
          (running prev row.cum_total_pnl total_pnl) in
      r :: pack (Some r) rest
  end.

(** The engine with the state after each date beside each row's values. *)
Definition attribution_trace (mm : MarketMaker.t) (prices : DataFrame.t)
    (f : fees) (futures_multipliers : option (dict.t float))
    : result (list (entry.t * state)) :=
  let prices := DataFrame.sort_index prices in
  let dates := DataFrame.index prices in
  let futures_multipliers := multipliers_or_empty futures_multipliers in
  replay prices (group_trades mm) f futures_multipliers dates None
    initial_state.

Definition compute_pnl_with_attribution (mm : MarketMaker.t)
    (prices : DataFrame.t) (f : fees)
    (futures_multipliers : option (dict.t float)) : result (list row.t) :=
  trace <- attribution_trace mm prices f futures_multipliers ;;
  Ok (pack None (map fst trace)).

(** The body of the trade loop of [compute_simple_pnl]: lines 222-255. *)
Definition apply_trade_simple (f : fees) (acc : dict.t float * float) (tr : tagged)
    : dict.t float * float :=
  let '(inventory, cash) := acc in
  let '(ticker, price, signed_vol, cost) :=
    match tr with
    | client tr =>
        let ticker := trades.CompletedTrade.ticker tr in
        let price := trades.CompletedTrade.trade_price tr in
        let vol := trades.CompletedTrade.trade_volume tr in
        let signed_vol :=
          if String.eqb (trades.CompletedTrade.mm_action tr) "buy"
          then vol else - vol in
        (ticker, price, signed_vol,
         transaction_cost vol price (fee_rate_client f)
           (fee_per_unit_client f))
    | hedge tr =>
        let ticker := ETFPosition.ticker tr in
        let price := ETFPosition.trade_price tr in
        let vol := ETFPosition.trade_volume tr in
        let signed_vol :=
          if String.eqb (ETFPosition.action tr) "buy" then vol else - vol in
        (ticker, price, signed_vol,
         transaction_cost vol price (fee_rate_hedge f)
           (fee_per_unit_hedge f))
    end in
  let notional := signed_vol * price in
  let cash := cash - notional in
  let cash := cash - cost in
  (iadd inventory ticker signed_vol, cash).

(** The loop over the dates of [compute_simple_pnl]: lines 220-263. *)
Fixpoint replay_simple (prices : DataFrame.t)
    (trades_by_date : Z -> list tagged) (f : fees) (dates : list Z)
    (inventory : dict.t float) (cash : float) : result (list (Z * float)) :=
  match dates with
  | [] => Ok []
  | current_date :: rest =>
      let '(inventory, cash) :=
        fold_left (apply_trade_simple f) (trades_by_date current_date)
          (inventory, cash) in
      port_val <- value_main prices current_date inventory 0 ;;
      tail <- replay_simple prices trades_by_date f rest inventory cash ;;
      Ok ((current_date, cash + port_val) :: tail)
  end.

(** The equity Series, as its (date, value) items in index order. *)
Definition compute_simple_pnl (mm : MarketMaker.t) (prices : DataFrame.t)
    (f : fees) : result (list (Z * float)) :=
  let prices := DataFrame.sort_index prices in
  let dates := DataFrame.index prices in
  replay_simple prices (group_trades mm) f dates [] 0.

End pnl.

(** ** Notions used to state the properties on binary64 numbers *)

Import market_maker.
Import pnl.

(** The effect of [pos.position_volume = f(pos.position_volume)] on the
    object itself. *)
Definition bump (f : float -> float) (p : Position.t) : Position.t :=
  Position.mk (Position.ticker p) (f (Position.position_volume p)).

(** The binding of [ticker] in a position map, or the new object that
    [get] builds when there is none. *)
Definition position_or_new (d : dict.t Position.t) (ticker : string)
    : Position.t :=
  match dict.lookup d ticker with
  | Some p => p
  | None => Position.mk ticker 0
  end.

(** [position_volume] after one accepted event: [+=] for 'buy', [-=] for
    'sell'. *)
Definition apply_fill (volume : float) (e : event) : float :=
  if String.eqb (event_action e) "buy" then volume + event_volume e
  else volume - event_volume e.

(** The events of one instrument, in ingestion order. *)
Definition fills_of (ticker : string) (events : list event) : list event :=
  filter (fun e => String.eqb (event_ticker e) ticker) events.

(** The volume reached from [start] by applying, in ingestion order, the
    events of one instrument. *)
Definition accumulated (ticker : string) (events : list event)
    (start : float) : float :=
  fold_left apply_fill (fills_of ticker events) start.

(** The (date, equity) items of the attribution table. *)
Definition equity_column (table : list row.t) : list (Z * float) :=
  map (fun r => (row.date r, row.equity r)) table.




(** Sample inputs. *)
Definition fill (ticker : string) (volume price : float) (action : string)
    (ref : float) (date : Z) : trades.CompletedTrade.t :=
  trades.CompletedTrade.mk ticker volume price action ref ref ref date.

Definition no_fees : fees := mk_fees 0 0 0 0.

(** 2^53, from which adding 1 is lost to rounding. *)
Definition two53 : float := 9007199254740992.

Definition big_buy : event := client_fill (fill "X" two53 1 "buy" 1 1).
Definition small_buy : event := client_fill (fill "X" 1 1 "buy" 1 1).
Definition big_sell : event := client_fill (fill "X" two53 1 "sell" 1 1).

Definition new_ledger : MarketMaker.t := MarketMaker.init None None.



(** A single client buy. *)
Definition one_trade_ledger (volume price ref : float) : MarketMaker.t :=
  fst (ingest_all new_ledger [client_fill (fill "X" volume price "buy" ref 1)]).

Definition sample_events : list event :=
  [ client_fill (fill "X" 10 99 "buy" 100 1);
    hedge_fill (ExecutedTrade.mk "X" 4 100 "sell" 1);
    client_fill (fill "Y" 3 51 "sell" 50 2) ].

End binary64.
(** * The ledger *)

Section DictFacts.

Context {V : Type}.

Lemma contains_lookup (d : dict.t V) (k : string) :
  dict.contains d k = match dict.lookup d k with Some _ => true | None => false end.
Proof.
  induction d as [|[k' v] d IH]; simpl; [reflexivity|].
  destruct (String.eqb k' k); [reflexivity|apply IH].
Qed.

Lemma lookup_setitem (d : dict.t V) (k k' : string) (v : V) :
  dict.lookup (dict.setitem d k v) k' =
  if String.eqb k k' then Some v else dict.lookup d k'.
Proof.
  induction d as [|[k0 v0] d IH]; simpl.
  - reflexivity.
  - destruct (String.eqb k0 k) eqn:E0; simpl.
    + apply String.eqb_eq in E0; subst k0.
      destruct (String.eqb k k'); reflexivity.
    + destruct (String.eqb k0 k') eqn:E1.
      * apply String.eqb_eq in E1; subst k0.
        rewrite String.eqb_sym, E0. reflexivity.
      * apply IH.
Qed.

End DictFacts.

Lemma valid_action_cases (a : string) :
  valid_action a = true -> a = "buy" \/ a = "sell".
Proof.
  unfold valid_action. intros H. apply orb_true_iff in H.
  destruct H as [H|H]; apply String.eqb_eq in H; auto.
Qed.

(** C5. A CompletedTrade whose [mm_action] is neither 'buy' nor 'sell'
    makes [add_trade] raise (the code's error is a ValueError carrying
    "Unknown mm_action: <action>"), whatever the state of the MarketMaker,
    and [current_positions] is exactly what it was before the call: no
    Position was created, changed or stored for the rejected trade. *)
Theorem add_trade_rejects_unknown_action (self : MarketMaker.t)
    (trade : trades.CompletedTrade.t) :
  trades.CompletedTrade.mm_action trade <> "buy" ->
  trades.CompletedTrade.mm_action trade <> "sell" ->
  snd (MarketMaker.add_trade self trade) =
    Raise (ValueError ("Unknown mm_action: "
                       ++ trades.CompletedTrade.mm_action trade)) /\
  MarketMaker.current_positions (fst (MarketMaker.add_trade self trade)) =
    MarketMaker.current_positions self.
Proof.
  intros Hb Hs. unfold MarketMaker.add_trade.
  apply String.eqb_neq in Hb. apply String.eqb_neq in Hs.
  rewrite Hb, Hs. simpl. split; reflexivity.
Qed.

Lemma add_trade_rejects_unknown_action_witness :
  trades.CompletedTrade.mm_action (sample_fill "X" 5 99 "hold" 100 3) <> "buy" /\
  trades.CompletedTrade.mm_action (sample_fill "X" 5 99 "hold" 100 3) <> "sell" /\
  snd (MarketMaker.add_trade sample_ledger (sample_fill "X" 5 99 "hold" 100 3)) =
    Raise (ValueError "Unknown mm_action: hold") /\
  MarketMaker.current_positions
    (fst (MarketMaker.add_trade sample_ledger
            (sample_fill "X" 5 99 "hold" 100 3))) =
    MarketMaker.current_positions sample_ledger.
Proof.
  assert (Hb : trades.CompletedTrade.mm_action
                 (sample_fill "X" 5 99 "hold" 100 3) <> "buy")
    by (simpl; discriminate).
  assert (Hs : trades.CompletedTrade.mm_action
                 (sample_fill "X" 5 99 "hold" 100 3) <> "sell")
    by (simpl; discriminate).
  split; [exact Hb|]. split; [exact Hs|].
  exact (add_trade_rejects_unknown_action sample_ledger
           (sample_fill "X" 5 99 "hold" 100 3) Hb Hs).
Defined.

(** C10. [add_trade] appends the trade to [completed_trades] before it looks
    at [mm_action]: for a CompletedTrade whose action is neither 'buy' nor
    'sell' the call raises its ValueError in a state whose log is the old
    log followed by the rejected trade (one entry longer), the other logs
    and the position map being those of before the call. *)
Theorem add_trade_logs_before_validating (self : MarketMaker.t)
    (trade : trades.CompletedTrade.t) :
  trades.CompletedTrade.mm_action trade <> "buy" ->
  trades.CompletedTrade.mm_action trade <> "sell" ->
  exists msg,
    MarketMaker.add_trade self trade =
      (MarketMaker.mk (MarketMaker.quoted_trades self)
         (MarketMaker.completed_trades self ++ [trade])
         (MarketMaker.current_positions self)
         (MarketMaker.ETF_positions self),
       Raise (ValueError msg)) /\
    List.length
      (MarketMaker.completed_trades (fst (MarketMaker.add_trade self trade)))
      = S (List.length (MarketMaker.completed_trades self)).
Proof.
  intros Hb Hs. unfold MarketMaker.add_trade.
  apply String.eqb_neq in Hb. apply String.eqb_neq in Hs.
  rewrite Hb, Hs. simpl. eexists. split; [reflexivity|].
  rewrite length_app. simpl. rewrite Nat.add_comm. reflexivity.
Qed.

Lemma add_trade_logs_before_validating_witness :
  trades.CompletedTrade.mm_action (sample_fill "Y" 2 50 "hold" 50 4) <> "buy" /\
  trades.CompletedTrade.mm_action (sample_fill "Y" 2 50 "hold" 50 4) <> "sell" /\
  exists msg,
    MarketMaker.add_trade sample_ledger (sample_fill "Y" 2 50 "hold" 50 4) =
      (MarketMaker.mk (MarketMaker.quoted_trades sample_ledger)
         (MarketMaker.completed_trades sample_ledger
          ++ [sample_fill "Y" 2 50 "hold" 50 4])
         (MarketMaker.current_positions sample_ledger)
         (MarketMaker.ETF_positions sample_ledger),
       Raise (ValueError msg)) /\
    List.length
      (MarketMaker.completed_trades
         (fst (MarketMaker.add_trade sample_ledger
                 (sample_fill "Y" 2 50 "hold" 50 4))))
      = S (List.length (MarketMaker.completed_trades sample_ledger)).
Proof.
  assert (Hb : trades.CompletedTrade.mm_action
                 (sample_fill "Y" 2 50 "hold" 50 4) <> "buy")
    by (simpl; discriminate).
  assert (Hs : trades.CompletedTrade.mm_action
                 (sample_fill "Y" 2 50 "hold" 50 4) <> "sell")
    by (simpl; discriminate).
  split; [exact Hb|]. split; [exact Hs|].
  exact (add_trade_logs_before_validating sample_ledger
           (sample_fill "Y" 2 50 "hold" 50 4) Hb Hs).
Defined.

(** * Trade records *)

(** C6, as stated, fails: the dataclass constructors validate nothing. A
    CompletedTrade with volume -5 and price 0 is constructed, and its
    volume is not strictly positive. *)
Lemma trade_record_validation_counterexample :
  exists t,
    trades.CompletedTrade.init "X" (-5) 0 "buy" 100 99 101 1 = Ok t /\
    trades.CompletedTrade.trade_volume t <= 0 /\
    trades.CompletedTrade.trade_price t <= 0.
Proof.
  eexists. split; [reflexivity|]. simpl. split; lra.
Qed.

(** C6, amended. Constructing a QuotedTrade, a CompletedTrade, an
    ETFPosition or an ExecutedTrade never fails: the record is built with
    the volume and prices it was given, whatever their sign, so its volume
    is strictly positive exactly when the caller passed a strictly positive
    volume. *)
Theorem trade_records_store_their_arguments :
  (forall ticker volume ref bid offer date,
     exists t, trades.QuotedTrade.init ticker volume ref bid offer date = Ok t /\
       trades.QuotedTrade.trade_volume t = volume /\
       trades.QuotedTrade.ref_price t = ref /\
       (0 < trades.QuotedTrade.trade_volume t <-> 0 < volume)) /\
  (forall ticker volume price action ref bid offer date,
     exists t,
       trades.CompletedTrade.init ticker volume price action ref bid offer date
         = Ok t /\
       trades.CompletedTrade.trade_volume t = volume /\
       trades.CompletedTrade.trade_price t = price /\
       (0 < trades.CompletedTrade.trade_volume t <-> 0 < volume)) /\
  (forall ticker volume price action date,
     exists t, ETFPosition.init ticker volume price action date = Ok t /\
       ETFPosition.trade_volume t = volume /\
       ETFPosition.trade_price t = price /\
       (0 < ETFPosition.trade_volume t <-> 0 < volume)) /\
  (forall ticker volume price action date,
     exists t, ExecutedTrade.init ticker volume price action date = Ok t /\
       ExecutedTrade.trade_volume t = volume /\
       ExecutedTrade.trade_price t = price /\
       (0 < ExecutedTrade.trade_volume t <-> 0 < volume)).
Proof.
  repeat split; intros; eexists;
    (split; [reflexivity|]); simpl; repeat split; auto.
Qed.

(** * The venue *)

(** C9. [Exchange.execute] always returns a report; the report repeats the
    order's ticker, volume, action and timestamp, and its price is the cell
    of the price table at (date, ticker) when the table has that date and
    that ticker, and the order's reference price otherwise. *)
Theorem execute_fills_or_falls_back (self : exchange.Exchange.t)
    (trade : exchange.ExchangeTrade.t) :
  exists report,
    exchange.Exchange.execute self trade = Ok report /\
    exchange.ExecutedTrade.ticker report = exchange.ExchangeTrade.ticker trade /\
    exchange.ExecutedTrade.trade_volume report
      = exchange.ExchangeTrade.trade_volume trade /\
    exchange.ExecutedTrade.action report = exchange.ExchangeTrade.action trade /\
    exchange.ExecutedTrade.date report = exchange.ExchangeTrade.date trade /\
    exchange.ExecutedTrade.trade_price report =
      if mem_Z (exchange.ExchangeTrade.date trade)
           (DataFrame.index (exchange.Exchange.prices self))
         && mem_string (exchange.ExchangeTrade.ticker trade)
              (DataFrame.columns (exchange.Exchange.prices self))
      then DataFrame.values (exchange.Exchange.prices self)
             (exchange.ExchangeTrade.date trade)
             (exchange.ExchangeTrade.ticker trade)
      else exchange.ExchangeTrade.ref_price trade.
Proof.
  unfold exchange.Exchange.execute, DataFrame.loc, DataFrame.has_index,
    DataFrame.has_column.
  destruct (mem_Z _ _ && mem_string _ _); simpl;
    eexists; repeat split; reflexivity.
Qed.

(** * Quotes *)





(** * The attribution engine *)

(** ** Dates and lookups *)

Lemma mem_Z_insert_sorted (d x : Z) (l : list Z) :
  mem_Z d (insert_sorted x l) = mem_Z d (x :: l).
Proof.
  unfold mem_Z.
  induction l as [|y l IH]; simpl; [reflexivity|].
  destruct (x <=? y)%Z; simpl; [reflexivity|].
  simpl in IH. rewrite IH.
  destruct (d =? y)%Z, (d =? x)%Z; reflexivity.
Qed.

Lemma mem_Z_sort_dates (d : Z) (l : list Z) :
  mem_Z d (sort_dates l) = mem_Z d l.
Proof.
  induction l as [|x l IH]; simpl; [reflexivity|].
  rewrite mem_Z_insert_sorted. unfold mem_Z in *. simpl. rewrite IH.
  reflexivity.
Qed.

Lemma mem_Z_In (d : Z) (l : list Z) : In d l -> mem_Z d l = true.
Proof.
  intros H. apply existsb_exists. exists d. split; [exact H|apply BinInt.Z.eqb_refl].
Qed.

Lemma sorted_index_has (prices : DataFrame.t) (d : Z) :
  In d (DataFrame.index (DataFrame.sort_index prices)) ->
  DataFrame.has_index (DataFrame.sort_index prices) d = true.
Proof. intros H. apply mem_Z_In. exact H. Qed.

Lemma loc_ok (prices : DataFrame.t) (d : Z) (c : string) :
  DataFrame.has_index prices d = true ->
  DataFrame.has_column prices c = true ->
  DataFrame.loc prices d c = Ok (DataFrame.values prices d c).
Proof. intros Hd Hc. unfold DataFrame.loc. rewrite Hd, Hc. reflexivity. Qed.

(** ** The loops over an inventory are weighted sums *)

Lemma weighted_ext (cols : string -> bool) (w w' : string -> R)
    (inventory : dict.t R) :
  (forall ticker, cols ticker = true -> w ticker = w' ticker) ->
  weighted cols w inventory = weighted cols w' inventory.
Proof.
  intros H. induction inventory as [|[k q] rest IH]; simpl; [reflexivity|].
  rewrite IH. destruct (cols k) eqn:E; [rewrite (H k E)|]; reflexivity.
Qed.

Lemma weighted_without (cols : string -> bool) (w : string -> R)
    (inventory : dict.t R) (ticker : string) :
  cols ticker = false ->
  weighted cols w (without ticker inventory) = weighted cols w inventory.
Proof.
  intros H. induction inventory as [|[k q] rest IH]; simpl; [reflexivity|].
  destruct (String.eqb k ticker) eqn:E; simpl.
  - apply String.eqb_eq in E. subst k. rewrite H, IH. ring.
  - rewrite IH. reflexivity.
Qed.

Lemma inventory_move_weighted (prices : DataFrame.t) (dP : Series.t)
    (inventory : dict.t R) :
  inventory_move prices dP inventory =
  weighted (DataFrame.has_column prices) (fun t => Series.get dP t 0) inventory.
Proof.
  unfold inventory_move.
  enough (H : forall acc,
             fold_left
               (fun inv_p '(ticker, qty) =>
                  if DataFrame.has_column prices ticker
                  then inv_p + qty * Series.get dP ticker 0 else inv_p)
               inventory acc =
             acc + weighted (DataFrame.has_column prices)
                     (fun t => Series.get dP t 0) inventory).
  { rewrite H. ring. }
  induction inventory as [|[k q] rest IH]; intros acc; simpl; [ring|].
  rewrite IH. destruct (DataFrame.has_column prices k); ring.
Qed.

Lemma hedge_move_weighted (prices : DataFrame.t) (dP : Series.t)
    (mult : dict.t R) (inventory : dict.t R) :
  hedge_move prices dP mult inventory =
  weighted (DataFrame.has_column prices)
    (fun t => dict.get mult t 1 * Series.get dP t 0) inventory.
Proof.
  unfold hedge_move.
  enough (H : forall acc,
             fold_left
               (fun hed_p '(ticker, qty) =>
                  if DataFrame.has_column prices ticker
                  then hed_p + qty * dict.get mult ticker 1
                               * Series.get dP ticker 0
                  else hed_p)
               inventory acc =
             acc + weighted (DataFrame.has_column prices)
                     (fun t => dict.get mult t 1 * Series.get dP t 0)
                     inventory).
  { rewrite H. ring. }
  induction inventory as [|[k q] rest IH]; intros acc; simpl; [ring|].
  rewrite IH. destruct (DataFrame.has_column prices k); ring.
Qed.

Lemma value_main_weighted (prices : DataFrame.t) (d : Z)
    (inventory : dict.t R) (acc : R) :
  DataFrame.has_index prices d = true ->
  value_main prices d inventory acc =
  Ok (acc + weighted (DataFrame.has_column prices) (DataFrame.values prices d)
              inventory).
Proof.
  intros Hd. unfold value_main. revert acc.
  induction inventory as [|[k q] rest IH]; intros acc; simpl.
  - f_equal. ring.
  - destruct (DataFrame.has_column prices k) eqn:Hk; simpl.
    + rewrite (loc_ok prices d k Hd Hk). simpl. rewrite IH. f_equal. ring.
    + rewrite IH. f_equal. ring.
Qed.

Lemma value_hedge_weighted (prices : DataFrame.t) (d : Z) (mult : dict.t R)
    (inventory : dict.t R) (acc : R) :
  DataFrame.has_index prices d = true ->
  value_hedge prices d mult inventory acc =
  Ok (acc + weighted (DataFrame.has_column prices)
              (fun t => dict.get mult t 1 * DataFrame.values prices d t)
              inventory).
Proof.
  intros Hd. unfold value_hedge. revert acc.
  induction inventory as [|[k q] rest IH]; intros acc; simpl.
  - f_equal. ring.
  - destruct (DataFrame.has_column prices k) eqn:Hk; simpl.
    + rewrite (loc_ok prices d k Hd Hk). simpl. rewrite IH. f_equal. ring.
    + rewrite IH. f_equal. ring.
Qed.

(** ** The engine never raises and computes [replay_value] *)

Lemma price_move_ok (prices : DataFrame.t) (mult : dict.t R)
    (prev_date : option Z) (d : Z) (st : state) :
  DataFrame.has_index prices d = true ->
  (forall p, prev_date = Some p -> DataFrame.has_index prices p = true) ->
  price_move prices mult prev_date d st = Ok (moves prices mult prev_date d st).
Proof.
  intros Hd Hp. unfold price_move, moves.
  destruct prev_date as [p|]; [|reflexivity].
  unfold DataFrame.loc_row. rewrite Hd, (Hp p eq_refl). simpl.
  rewrite inventory_move_weighted, hedge_move_weighted.
  do 2 f_equal; apply weighted_ext; intros t Ht;
    unfold Series.get, Series.sub; simpl;
    unfold DataFrame.has_column in Ht; rewrite Ht; reflexivity.
Qed.

Lemma mark_to_market_ok (prices : DataFrame.t) (mult : dict.t R) (d : Z)
    (st : state) :
  DataFrame.has_index prices d = true ->
  mark_to_market prices mult d st = Ok (book_value prices mult d st).
Proof.
  intros Hd. unfold mark_to_market, book_value.
  rewrite (value_main_weighted prices d _ 0 Hd). simpl.
  rewrite (value_hedge_weighted prices d mult _ _ Hd). f_equal. ring.
Qed.

Lemma on_date_ok (prices : DataFrame.t) (tbd : Z -> list tagged) (f : fees)
    (mult : dict.t R) (prev_date : option Z) (d : Z) (st : state) :
  DataFrame.has_index prices d = true ->
  (forall p, prev_date = Some p -> DataFrame.has_index prices p = true) ->
  on_date prices tbd f mult prev_date d st =
  Ok (on_date_value prices tbd f mult prev_date d st).
Proof.
  intros Hd Hp. unfold on_date, on_date_value.
  rewrite (price_move_ok prices mult prev_date d st Hd Hp). simpl.
  destruct (moves prices mult prev_date d st) as [inv_p hed_p].
  destruct (fold_left (apply_trade f) (tbd d) (st, mk_flow 0 0 0))
    as [st' fl].
  rewrite (mark_to_market_ok prices mult d st' Hd). reflexivity.
Qed.

Lemma replay_ok (prices : DataFrame.t) (tbd : Z -> list tagged) (f : fees)
    (mult : dict.t R) (dates : list Z) :
  forall (prev_date : option Z) (st : state),
    (forall d, In d dates -> DataFrame.has_index prices d = true) ->
    (forall p, prev_date = Some p -> DataFrame.has_index prices p = true) ->
    replay prices tbd f mult dates prev_date st =
    Ok (replay_value prices tbd f mult dates prev_date st).
Proof.
  induction dates as [|d rest IH]; intros prev_date st Hin Hp;
    cbn [replay replay_value].
  - reflexivity.
  - assert (Hd : DataFrame.has_index prices d = true)
      by (apply Hin; left; reflexivity).
    rewrite (on_date_ok prices tbd f mult prev_date d st Hd Hp).
    cbn [bind].
    destruct (on_date_value prices tbd f mult prev_date d st) as [e st'].
    cbn [snd]. rewrite IH.
    + reflexivity.
    + intros d' Hd'. apply Hin. right. exact Hd'.
    + intros p Hp'. inversion Hp'. subst p. exact Hd.
Qed.

Lemma attribution_trace_ok (mm : MarketMaker.t) (prices : DataFrame.t)
    (f : fees) (futures_multipliers : option (dict.t R)) :
  attribution_trace mm prices f futures_multipliers =
  Ok (replay_value (DataFrame.sort_index prices) (group_trades mm) f
        (multipliers_or_empty futures_multipliers)
        (DataFrame.index (DataFrame.sort_index prices)) None initial_state).
Proof.
  unfold attribution_trace. apply replay_ok.
  - intros d Hd. apply sorted_index_has. exact Hd.
  - intros p Hp. discriminate Hp.
Qed.

Lemma compute_pnl_with_attribution_ok (mm : MarketMaker.t)
    (prices : DataFrame.t) (f : fees)
    (futures_multipliers : option (dict.t R)) :
  compute_pnl_with_attribution mm prices f futures_multipliers =
  Ok (pack None
        (map fst
           (replay_value (DataFrame.sort_index prices) (group_trades mm) f
              (multipliers_or_empty futures_multipliers)
              (DataFrame.index (DataFrame.sort_index prices)) None
              initial_state))).
Proof.
  unfold compute_pnl_with_attribution.
  rewrite attribution_trace_ok. reflexivity.
Qed.

Lemma pack_total_pnl (entries : list entry.t) :
  forall prev,
    Forall
      (fun r =>
         row.total_cost r = row.client_cost r + row.hedge_cost r /\
         row.total_pnl r =
           row.spread_pnl r + row.inventory_pnl r + row.hedge_pnl r
           - (row.client_cost r + row.hedge_cost r))
      (pack prev entries).
Proof.
  induction entries as [|e rest IH]; intros prev; simpl; constructor.
  - simpl. split; reflexivity.
  - apply IH.
Qed.

(** C1. The engine returns its table for every MarketMaker, price table,
    fee schedule and multiplier table, and in every row of it [total_pnl]
    is [spread_pnl + inventory_pnl + hedge_pnl - (client_cost + hedge_cost)],
    the bracket being the row's [total_cost]. *)
Theorem total_pnl_is_the_sum_of_its_components (mm : MarketMaker.t)
    (prices : DataFrame.t) (f : fees)
    (futures_multipliers : option (dict.t R)) :
  exists table,
    compute_pnl_with_attribution mm prices f futures_multipliers = Ok table /\
    Forall
      (fun r =>
         row.total_cost r = row.client_cost r + row.hedge_cost r /\
         row.total_pnl r =
           row.spread_pnl r + row.inventory_pnl r + row.hedge_pnl r
           - (row.client_cost r + row.hedge_cost r))
      table.
Proof.
  eexists. split; [apply compute_pnl_with_attribution_ok|apply pack_total_pnl].
Qed.

(** ** Instruments without a column *)

Lemma inventory_move_without (prices : DataFrame.t) (dP : Series.t)
    (ticker : string) (inventory : dict.t R) :
  DataFrame.has_column prices ticker = false ->
  inventory_move prices dP inventory =
  inventory_move prices dP (without ticker inventory).
Proof.
  intros H. rewrite !inventory_move_weighted.
  symmetry. apply weighted_without. exact H.
Qed.

Lemma hedge_move_without (prices : DataFrame.t) (dP : Series.t)
    (mult : dict.t R) (ticker : string) (inventory : dict.t R) :
  DataFrame.has_column prices ticker = false ->
  hedge_move prices dP mult inventory =
  hedge_move prices dP mult (without ticker inventory).
Proof.
  intros H. rewrite !hedge_move_weighted.
  symmetry. apply weighted_without. exact H.
Qed.

Lemma value_main_without (prices : DataFrame.t) (d : Z) (ticker : string)
    (inventory : dict.t R) :
  DataFrame.has_column prices ticker = false ->
  forall acc,
    value_main prices d inventory acc =
    value_main prices d (without ticker inventory) acc.
Proof.
  intros H. unfold value_main.
  induction inventory as [|[k q] rest IH]; intros acc; simpl; [reflexivity|].
  destruct (String.eqb k ticker) eqn:E; simpl.
  - apply String.eqb_eq in E. subst k. rewrite H. simpl. apply IH.
  - destruct (DataFrame.has_column prices k); simpl.
    + destruct (DataFrame.loc prices d k); simpl; [apply IH|reflexivity].
    + apply IH.
Qed.

Lemma value_hedge_without (prices : DataFrame.t) (d : Z) (mult : dict.t R)
    (ticker : string) (inventory : dict.t R) :
  DataFrame.has_column prices ticker = false ->
  forall acc,
    value_hedge prices d mult inventory acc =
    value_hedge prices d mult (without ticker inventory) acc.
Proof.
  intros H. unfold value_hedge.
  induction inventory as [|[k q] rest IH]; intros acc; simpl; [reflexivity|].
  destruct (String.eqb k ticker) eqn:E; simpl.
  - apply String.eqb_eq in E. subst k. rewrite H. simpl. apply IH.
  - destruct (DataFrame.has_column prices k); simpl.
    + destruct (DataFrame.loc prices d k); simpl; [apply IH|reflexivity].
    + apply IH.
Qed.

(** C8. The engine returns its table for every MarketMaker and price table:
    no lookup of a held instrument can raise. If a ticker has no column in
    the price table, the price-move step (inventory PnL and hedge PnL) and
    the mark-to-market step give, at every date and in every state, the
    result they give once the entries of that ticker are dropped from both
    inventories: the instrument contributes nothing. *)
Theorem absent_instrument_contributes_nothing (prices : DataFrame.t)
    (ticker : string) :
  DataFrame.has_column prices ticker = false ->
  (forall mm f futures_multipliers,
     exists table,
       compute_pnl_with_attribution mm prices f futures_multipliers = Ok table) /\
  (forall mult prev_date d st,
     price_move (DataFrame.sort_index prices) mult prev_date d st =
     price_move (DataFrame.sort_index prices) mult prev_date d
       (state_without ticker st)) /\
  (forall mult d st,
     mark_to_market (DataFrame.sort_index prices) mult d st =
     mark_to_market (DataFrame.sort_index prices) mult d
       (state_without ticker st)).
Proof.
  intros H.
  assert (Hs : DataFrame.has_column (DataFrame.sort_index prices) ticker = false)
    by exact H.
  split; [|split].
  - intros mm f fm. eexists. apply compute_pnl_with_attribution_ok.
  - intros mult prev_date d st. unfold price_move.
    destruct prev_date as [p|]; [|reflexivity].
    destruct (DataFrame.loc_row _ d) as [cur|]; simpl; [|reflexivity].
    destruct (DataFrame.loc_row _ p) as [prev|]; simpl; [|reflexivity].
    rewrite <- (inventory_move_without _ _ ticker _ Hs).
    rewrite <- (hedge_move_without _ _ _ ticker _ Hs). reflexivity.
  - intros mult d st. unfold mark_to_market. simpl.
    rewrite <- (value_main_without _ d ticker _ Hs).
    destruct (value_main _ d (inventory_main st) 0); simpl; [|reflexivity].
    apply value_hedge_without. exact Hs.
Qed.

Lemma absent_instrument_contributes_nothing_witness :
  DataFrame.has_column sample_prices "Z" = false /\
  (forall mm f futures_multipliers,
     exists table,
       compute_pnl_with_attribution mm sample_prices f futures_multipliers
         = Ok table) /\
  (forall mult prev_date d st,
     price_move (DataFrame.sort_index sample_prices) mult prev_date d st =
     price_move (DataFrame.sort_index sample_prices) mult prev_date d
       (state_without "Z" st)) /\
  (forall mult d st,
     mark_to_market (DataFrame.sort_index sample_prices) mult d st =
     mark_to_market (DataFrame.sort_index sample_prices) mult d
       (state_without "Z" st)).
Proof.
  split; [reflexivity|].
  apply (absent_instrument_contributes_nothing sample_prices "Z").
  reflexivity.
Defined.

(** ** The equity-only engine *)

Lemma replay_simple_ok (prices : DataFrame.t) (tbd : Z -> list tagged)
    (f : fees) (dates : list Z) :
  forall (inventory : dict.t R) (cash : R),
    (forall d, In d dates -> DataFrame.has_index prices d = true) ->
    replay_simple prices tbd f dates inventory cash =
    Ok (replay_simple_value prices tbd f dates inventory cash).
Proof.
  induction dates as [|d rest IH]; intros inventory cash Hin;
    cbn [replay_simple replay_simple_value].
  - reflexivity.
  - assert (Hd : DataFrame.has_index prices d = true)
      by (apply Hin; left; reflexivity).
    destruct (fold_left (apply_trade_simple f) (tbd d) (inventory, cash))
      as [inventory' cash'].
    rewrite (value_main_weighted prices d inventory' 0 Hd). cbn [bind].
    rewrite IH by (intros d' Hd'; apply Hin; right; exact Hd').
    cbn [bind fst snd]. do 3 f_equal. ring.
Qed.

(** ** The trades of a date *)

Lemma group_fold {A : Type} (key : A -> Z) (tag : A -> tagged) (l : list A) :
  forall (tbd : Z -> list tagged) (d : Z),
    fold_left (fun tbd a => append_at tbd (key a) (tag a)) l tbd d =
    tbd d ++ map tag (filter (fun a => (key a =? d)%Z) l).
Proof.
  induction l as [|a rest IH]; intros tbd d; simpl.
  - rewrite app_nil_r. reflexivity.
  - rewrite IH. unfold append_at. rewrite (Z.eqb_sym d (key a)).
    destruct (key a =? d)%Z; simpl; [rewrite <- app_assoc|]; reflexivity.
Qed.

(** The trades grouped under a date are the client trades of that date, in
    log order, followed by the hedge trades of that date. *)
Lemma group_trades_at (mm : MarketMaker.t) (d : Z) :
  group_trades mm d =
  map client
    (filter (fun ct => (trades.CompletedTrade.date ct =? d)%Z)
       (MarketMaker.completed_trades mm))
  ++ map hedge
       (filter (fun ht => (ETFPosition.date ht =? d)%Z)
          (MarketMaker.ETF_positions mm)).
Proof.
  unfold group_trades.
  rewrite (group_fold ETFPosition.date hedge).
  rewrite (group_fold trades.CompletedTrade.date client). reflexivity.
Qed.

(** The two-date scenario: a client buy of 10 X at 99 against a reference
    of 100, hedged by a sale of 10 X at 100, prices 100 then 105. The
    first date earns the spread, the second date's inventory and hedge
    moves cancel. *)
Example attribution_scenario :
  exists r1 r2,
    compute_pnl_with_attribution on_market_ledger sample_prices no_fees None
      = Ok [r1; r2] /\
    (row.date r1 = 1%Z /\ row.spread_pnl r1 = 10 /\ row.inventory_pnl r1 = 0 /\
     row.hedge_pnl r1 = 0 /\ row.total_pnl r1 = 10 /\ row.equity r1 = 10) /\
    (row.date r2 = 2%Z /\ row.spread_pnl r2 = 0 /\ row.inventory_pnl r2 = 50 /\
     row.hedge_pnl r2 = -50 /\ row.total_pnl r2 = 0 /\ row.equity r2 = 10 /\
     row.cum_total_pnl r2 = 10).
Proof.
  rewrite compute_pnl_with_attribution_ok.
  eexists. eexists. split; [reflexivity|].
  simpl.
  unfold transaction_cost, book_value, weighted, dict.iadd, dict.get; simpl.
  repeat split; try reflexivity; lra.
Qed.

Example simple_scenario :
  exists e1 e2,
    compute_simple_pnl on_market_ledger sample_prices no_fees
      = Ok [(1%Z, e1); (2%Z, e2)] /\
    e1 = 10 /\ e2 = 10.
Proof.
  eexists. eexists. split; [reflexivity|].
  simpl. unfold transaction_cost, weighted, dict.iadd, dict.get; simpl.
  split; lra.
Qed.

(** * Further properties of the ledger *)

Lemma ingest_valid_logs (self : MarketMaker.t) (e : event) :
  valid_action (event_action e) = true ->
  exists self' msg,
    ingest self e = (self', Ok msg) /\
    MarketMaker.quoted_trades self' = MarketMaker.quoted_trades self /\
    MarketMaker.completed_trades self' =
      MarketMaker.completed_trades self ++ client_fills [e] /\
    MarketMaker.ETF_positions self' =
      MarketMaker.ETF_positions self ++ hedge_fills [e].
Proof.
  intros Hv. apply valid_action_cases in Hv.
  destruct e as [trade|executed]; simpl in *.
  - unfold MarketMaker.add_trade.
    destruct Hv as [Hv|Hv]; rewrite Hv; simpl;
      match goal with
      | |- context [mutate ?d ?p ?f] => destruct (mutate d p f)
      end;
      do 2 eexists; (split; [reflexivity|]); simpl;
      rewrite app_nil_r; auto.
  - unfold MarketMaker.update_ETF_position.
    destruct Hv as [Hv|Hv]; rewrite Hv; simpl;
      match goal with
      | |- context [mutate ?d ?p ?f] => destruct (mutate d p f)
      end;
      do 2 eexists; (split; [reflexivity|]); simpl;
      rewrite app_nil_r; rewrite <- Hv; auto.
Qed.

Lemma client_fills_cons (e : event) (rest : list event) :
  client_fills (e :: rest) = client_fills [e] ++ client_fills rest.
Proof. destruct e; reflexivity. Qed.

Lemma hedge_fills_cons (e : event) (rest : list event) :
  hedge_fills (e :: rest) = hedge_fills [e] ++ hedge_fills rest.
Proof. destruct e; reflexivity. Qed.

Lemma ingest_all_logs (events : list event) :
  forall self : MarketMaker.t,
    forallb (fun e => valid_action (event_action e)) events = true ->
    exists self',
      ingest_all self events = (self', Ok tt) /\
      MarketMaker.quoted_trades self' = MarketMaker.quoted_trades self /\
      MarketMaker.completed_trades self' =
        MarketMaker.completed_trades self ++ client_fills events /\
      MarketMaker.ETF_positions self' =
        MarketMaker.ETF_positions self ++ hedge_fills events.
Proof.
  induction events as [|e rest IH]; intros self Hv.
  - exists self. simpl. rewrite !app_nil_r. auto.
  - cbn [forallb] in Hv. apply andb_true_iff in Hv. destruct Hv as [He Hrest].
    destruct (ingest_valid_logs self e He)
      as (self1 & msg & Hrun & Hq & Hc & Hh).
    destruct (IH self1 Hrest) as (self' & Hall & Hq' & Hc' & Hh').
    exists self'. cbn [ingest_all]. rewrite Hrun.
    split; [exact Hall|]. split; [congruence|].
    rewrite Hc', Hh', Hc, Hh, <- !app_assoc.
    rewrite <- client_fills_cons, <- hedge_fills_cons. auto.
Qed.

(** X1. The logs are append-only and ordered. From any state, ingesting
    events whose actions are 'buy' or 'sell' returns normally and leaves
    [completed_trades] equal to the old log followed by the ingested client
    fills in order, [ETF_positions] equal to the old log followed by one
    ETFPosition per execution report in order (same ticker, volume, price,
    action and date), and [quoted_trades] unchanged. *)
Theorem logs_record_the_ingested_events (self : MarketMaker.t)
    (events : list event) :
  forallb (fun e => valid_action (event_action e)) events = true ->
  exists self',
    ingest_all self events = (self', Ok tt) /\
    MarketMaker.quoted_trades self' = MarketMaker.quoted_trades self /\
    MarketMaker.completed_trades self' =
      MarketMaker.completed_trades self ++ client_fills events /\
    MarketMaker.ETF_positions self' =
      MarketMaker.ETF_positions self ++ hedge_fills events.
Proof. intros Hv. exact (ingest_all_logs events self Hv). Qed.

Lemma logs_record_the_ingested_events_witness :
  forallb (fun e => valid_action (event_action e)) sample_events = true /\
  exists self',
    ingest_all off_market_ledger sample_events = (self', Ok tt) /\
    MarketMaker.quoted_trades self' =
      MarketMaker.quoted_trades off_market_ledger /\
    MarketMaker.completed_trades self' =
      MarketMaker.completed_trades off_market_ledger
      ++ client_fills sample_events /\
    MarketMaker.ETF_positions self' =
      MarketMaker.ETF_positions off_market_ledger ++ hedge_fills sample_events.
Proof.
  split; [reflexivity|].
  apply (logs_record_the_ingested_events off_market_ledger sample_events).
  reflexivity.
Defined.

Lemma ingest_all_app (l1 l2 : list event) :
  forall self self1,
    ingest_all self l1 = (self1, Ok tt) ->
    ingest_all self (l1 ++ l2) = ingest_all self1 l2.
Proof.
  induction l1 as [|e rest IH]; intros self self1 H; simpl in *.
  - inversion H. reflexivity.
  - destruct (ingest self e) as [s [m|exn]]; [apply IH; exact H|].
    discriminate H.
Qed.

Lemma ingest_invalid (self : MarketMaker.t) (e : event) :
  valid_action (event_action e) = false ->
  exists msg,
    ingest self e =
      (MarketMaker.mk (MarketMaker.quoted_trades self)
         (MarketMaker.completed_trades self ++ logged_on_rejection e)
         (MarketMaker.current_positions self)
         (MarketMaker.ETF_positions self),
       Raise (ValueError msg)).
Proof.
  unfold valid_action. intros Hv. apply orb_false_iff in Hv.
  destruct Hv as [Hb Hs]. destruct e as [trade|executed]; simpl in *.
  - unfold MarketMaker.add_trade. rewrite Hb, Hs. eexists. reflexivity.
  - unfold MarketMaker.update_ETF_position. rewrite Hb, Hs.
    rewrite app_nil_r. destruct self. eexists. reflexivity.
Qed.

(** X3. A batch stops at its first bad event. When the events before it
    have valid actions and one event has an action that is neither 'buy'
    nor 'sell', ingesting the batch raises a ValueError; the positions are
    those reached after the valid prefix, the hedge log holds the prefix's
    reports only, the client log holds the prefix's fills plus the rejected
    fill when the bad event was a client fill, and no later event is
    ingested. *)
Theorem batch_stops_at_first_bad_event (self : MarketMaker.t)
    (good : list event) (bad : event) (rest : list event) :
  forallb (fun e => valid_action (event_action e)) good = true ->
  valid_action (event_action bad) = false ->
  exists self' msg,
    ingest_all self (good ++ bad :: rest) = (self', Raise (ValueError msg)) /\
    MarketMaker.current_positions self' =
      MarketMaker.current_positions (fst (ingest_all self good)) /\
    MarketMaker.completed_trades self' =
      MarketMaker.completed_trades self ++ client_fills good
      ++ logged_on_rejection bad /\
    MarketMaker.ETF_positions self' =
      MarketMaker.ETF_positions self ++ hedge_fills good.
Proof.
  intros Hgood Hbad.
  destruct (ingest_all_logs good self Hgood) as (self1 & Hrun & _ & Hc & Hh).
  destruct (ingest_invalid self1 bad Hbad) as (msg & Hstep).
  eexists. exists msg.
  rewrite (ingest_all_app good (bad :: rest) self self1 Hrun).
  cbn [ingest_all]. rewrite Hstep, Hrun. cbn [fst].
  split; [reflexivity|]. cbn [MarketMaker.current_positions
    MarketMaker.completed_trades MarketMaker.ETF_positions].
  split; [reflexivity|]. rewrite Hc, Hh, <- app_assoc. auto.
Qed.

Lemma batch_stops_at_first_bad_event_witness :
  forallb (fun e => valid_action (event_action e)) sample_events = true /\
  valid_action (event_action (client_fill (sample_fill "X" 5 99 "hold" 100 3)))
    = false /\
  exists self' msg,
    ingest_all (MarketMaker.init None None)
      (sample_events
       ++ client_fill (sample_fill "X" 5 99 "hold" 100 3)
          :: [client_fill (sample_fill "X" 7 99 "buy" 100 4)])
      = (self', Raise (ValueError msg)) /\
    MarketMaker.current_positions self' =
      MarketMaker.current_positions
        (fst (ingest_all (MarketMaker.init None None) sample_events)) /\
    MarketMaker.completed_trades self' =
      MarketMaker.completed_trades (MarketMaker.init None None)
      ++ client_fills sample_events
      ++ logged_on_rejection
           (client_fill (sample_fill "X" 5 99 "hold" 100 3)) /\
    MarketMaker.ETF_positions self' =
      MarketMaker.ETF_positions (MarketMaker.init None None)
      ++ hedge_fills sample_events.
Proof.
  split; [reflexivity|]. split; [reflexivity|].
  apply (batch_stops_at_first_bad_event (MarketMaker.init None None)
           sample_events
           (client_fill (sample_fill "X" 5 99 "hold" 100 3))
           [client_fill (sample_fill "X" 7 99 "buy" 100 4)]);
    reflexivity.
Defined.

(** X4. The hedge path rejects atomically. An execution report whose action
    is neither 'buy' nor 'sell' makes [update_ETF_position] raise
    ValueError("Unknown action <action>") and leaves the whole MarketMaker
    as it was: unlike [add_trade], nothing has been logged. *)
Theorem hedge_rejection_changes_nothing (self : MarketMaker.t)
    (executed_trade : ExecutedTrade.t) :
  ExecutedTrade.action executed_trade <> "buy" ->
  ExecutedTrade.action executed_trade <> "sell" ->
  MarketMaker.update_ETF_position self executed_trade =
    (self, Raise (ValueError ("Unknown action "
                              ++ ExecutedTrade.action executed_trade))).
Proof.
  intros Hb Hs. unfold MarketMaker.update_ETF_position.
  apply String.eqb_neq in Hb. apply String.eqb_neq in Hs.
  rewrite Hb, Hs. reflexivity.
Qed.

Lemma hedge_rejection_changes_nothing_witness :
  ExecutedTrade.action (ExecutedTrade.mk "X" 4 100 "hold" 1) <> "buy" /\
  ExecutedTrade.action (ExecutedTrade.mk "X" 4 100 "hold" 1) <> "sell" /\
  MarketMaker.update_ETF_position sample_ledger
    (ExecutedTrade.mk "X" 4 100 "hold" 1) =
    (sample_ledger, Raise (ValueError "Unknown action hold")).
Proof.
  assert (Hb : ExecutedTrade.action (ExecutedTrade.mk "X" 4 100 "hold" 1)
               <> "buy") by (simpl; discriminate).
  assert (Hs : ExecutedTrade.action (ExecutedTrade.mk "X" 4 100 "hold" 1)
               <> "sell") by (simpl; discriminate).
  split; [exact Hb|]. split; [exact Hs|].
  exact (hedge_rejection_changes_nothing sample_ledger
           (ExecutedTrade.mk "X" 4 100 "hold" 1) Hb Hs).
Defined.

(** X5. Quoting never changes inventory and commutes with fills.
    [add_quoted_trade] always returns, appends the quote to
    [quoted_trades] and leaves the other logs and the positions alone; and
    recording a quote before or after any client or hedge fill, accepted or
    rejected, leads to the same state and the same outcome of the fill. *)
Theorem quotes_commute_with_fills (self : MarketMaker.t)
    (quote : trades.QuotedTrade.t) (e : event) :
  (exists msg,
     MarketMaker.add_quoted_trade self quote =
       (MarketMaker.mk (MarketMaker.quoted_trades self ++ [quote])
          (MarketMaker.completed_trades self)
          (MarketMaker.current_positions self)
          (MarketMaker.ETF_positions self),
        Ok msg)) /\
  fst (ingest (fst (MarketMaker.add_quoted_trade self quote)) e) =
    fst (MarketMaker.add_quoted_trade (fst (ingest self e)) quote) /\
  snd (ingest (fst (MarketMaker.add_quoted_trade self quote)) e) =
    snd (ingest self e).
Proof.
  split; [eexists; reflexivity|].
  destruct e as [trade|executed]; simpl.
  - unfold MarketMaker.add_trade, MarketMaker.add_quoted_trade. simpl.
    destruct (String.eqb (trades.CompletedTrade.mm_action trade) "buy");
      [|destruct (String.eqb (trades.CompletedTrade.mm_action trade) "sell")];
      try match goal with
          | |- context [mutate ?d ?p ?f] => destruct (mutate d p f)
          end;
      split; reflexivity.
  - unfold MarketMaker.update_ETF_position, MarketMaker.add_quoted_trade.
    simpl.
    destruct (String.eqb (ExecutedTrade.action executed) "buy");
      [|destruct (String.eqb (ExecutedTrade.action executed) "sell")];
      try match goal with
          | |- context [mutate ?d ?p ?f] => destruct (mutate d p f)
          end;
      split; reflexivity.
Qed.

(** * Further properties of the quotes *)

(** X6. The fixed quote brackets the price. For a non-negative price and a
    non-negative base spread the bid is not above the price and the offer
    not below it. *)
Theorem fixed_quote_brackets_the_price (current_price base_spread : R) :
  0 <= current_price -> 0 <= base_spread ->
  fst (quotes.fixed_quote current_price base_spread) <= current_price /\
  current_price <= snd (quotes.fixed_quote current_price base_spread).
Proof.
  intros Hp Hs. unfold quotes.fixed_quote. cbn [fst snd].
  pose proof (Rmult_le_pos _ _ Hp Hs). lra.
Qed.

Lemma fixed_quote_brackets_the_price_witness :
  0 <= 100 /\ 0 <= 2 / 100 /\
  fst (quotes.fixed_quote 100 (2 / 100)) <= 100 /\
  100 <= snd (quotes.fixed_quote 100 (2 / 100)).
Proof.
  assert (H1 : 0 <= 100) by lra.
  assert (H2 : 0 <= 2 / 100) by lra.
  split; [exact H1|]. split; [exact H2|].
  exact (fixed_quote_brackets_the_price 100 (2 / 100) H1 H2).
Defined.




(** * Further properties of the attribution engine *)

(** ** One row per date, in ascending order *)

Lemma insert_sorted_ascending (d : Z) (l : list Z) :
  ascending l -> ascending (insert_sorted d l).
Proof.
  induction l as [|x l IH]; intros Hl; simpl; [exact I|].
  destruct (Z.leb_spec d x) as [Hle|Hgt].
  - split; [exact Hle|exact Hl].
  - destruct l as [|y l]; simpl in *.
    + split; [lia|exact I].
    + destruct Hl as [Hxy Hl]. specialize (IH Hl).
      destruct (Z.leb_spec d y); simpl in *; (split; [lia|]); assumption.
Qed.

Lemma sort_dates_ascending (l : list Z) : ascending (sort_dates l).
Proof.
  induction l as [|d l IH]; simpl; [exact I|].
  apply insert_sorted_ascending. exact IH.
Qed.

Lemma insert_sorted_permutation (d : Z) (l : list Z) :
  Permutation (insert_sorted d l) (d :: l).
Proof.
  induction l as [|x l IH]; simpl; [reflexivity|].
  destruct (d <=? x)%Z; [reflexivity|].
  rewrite IH. apply perm_swap.
Qed.

Lemma sort_dates_permutation (l : list Z) : Permutation (sort_dates l) l.
Proof.
  induction l as [|d l IH]; simpl; [reflexivity|].
  rewrite insert_sorted_permutation, IH. reflexivity.
Qed.

Lemma replay_value_dates (prices : DataFrame.t) (tbd : Z -> list tagged)
    (f : fees) (mult : dict.t R) (dates : list Z) :
  forall prev_date st,
    map (fun r => entry.date (fst r))
      (replay_value prices tbd f mult dates prev_date st) = dates.
Proof.
  induction dates as [|d rest IH]; intros prev_date st; cbn [replay_value map].
  - reflexivity.
  - rewrite IH. reflexivity.
Qed.

Lemma pack_dates (entries : list entry.t) :
  forall prev, map row.date (pack prev entries) = map entry.date entries.
Proof.
  induction entries as [|e rest IH]; intros prev; simpl; [reflexivity|].
  rewrite IH. reflexivity.
Qed.

(** X11. The table has one row per date of the price table, in ascending
    date order whatever the order of the table's index: the dates of the
    rows are the sorted index, a permutation of the index, and the table is
    empty for an empty price table. *)
Theorem one_row_per_date_in_ascending_order (mm : MarketMaker.t)
    (prices : DataFrame.t) (f : fees)
    (futures_multipliers : option (dict.t R)) :
  exists table,
    compute_pnl_with_attribution mm prices f futures_multipliers = Ok table /\
    map row.date table = sort_dates (DataFrame.index prices) /\
    ascending (map row.date table) /\
    Permutation (map row.date table) (DataFrame.index prices) /\
    List.length table = List.length (DataFrame.index prices).
Proof.
  eexists. split; [apply compute_pnl_with_attribution_ok|].
  assert (Hd : map row.date
                 (pack None
                    (map fst
                       (replay_value (DataFrame.sort_index prices)
                          (group_trades mm) f
                          (multipliers_or_empty futures_multipliers)
                          (DataFrame.index (DataFrame.sort_index prices))
                          None initial_state)))
               = sort_dates (DataFrame.index prices)).
  { rewrite pack_dates, map_map. apply replay_value_dates. }
  split; [exact Hd|]. rewrite Hd.
  split; [apply sort_dates_ascending|].
  split; [apply sort_dates_permutation|].
  rewrite <- (length_map row.date), Hd.
  apply Permutation_length. apply sort_dates_permutation.
Qed.

Lemma insert_sorted_commutes (a b : Z) (l : list Z) :
  insert_sorted a (insert_sorted b l) = insert_sorted b (insert_sorted a l).
Proof.
  induction l as [|x l IH]; simpl.
  - destruct (Z.leb_spec a b), (Z.leb_spec b a); try reflexivity; try lia.
    assert (a = b) by lia. subst. reflexivity.
  - destruct (Z.leb_spec b x), (Z.leb_spec a x); simpl;
      repeat match goal with
             | |- context [(?u <=? ?v)%Z] => destruct (Z.leb_spec u v)
             end;
      try lia; try reflexivity.
    + assert (a = b) by lia. subst. reflexivity.
    + rewrite IH. reflexivity.
Qed.

Lemma sort_dates_of_permutation (l l' : list Z) :
  Permutation l l' -> sort_dates l = sort_dates l'.
Proof.
  induction 1 as [|d l l' _ IH|a b l|l1 l2 l3 _ IH1 _ IH2]; simpl.
  - reflexivity.
  - rewrite IH. reflexivity.
  - apply insert_sorted_commutes.
  - rewrite IH1. exact IH2.
Qed.

(** X12. The caller need not sort the price table: two price tables with
    the same columns and cells whose index lists are permutations of each
    other give the same attribution table and the same equity series. *)
Theorem row_order_of_the_price_table_is_irrelevant (mm : MarketMaker.t)
    (f : fees) (futures_multipliers : option (dict.t R))
    (index index' : list Z) (columns : list string)
    (values : Z -> string -> R) :
  Permutation index index' ->
  compute_pnl_with_attribution mm (DataFrame.mk index columns values) f
    futures_multipliers =
  compute_pnl_with_attribution mm (DataFrame.mk index' columns values) f
    futures_multipliers /\
  compute_simple_pnl mm (DataFrame.mk index columns values) f =
  compute_simple_pnl mm (DataFrame.mk index' columns values) f.
Proof.
  intros Hp.
  unfold compute_pnl_with_attribution, attribution_trace, compute_simple_pnl,
    DataFrame.sort_index. simpl.
  rewrite (sort_dates_of_permutation index index' Hp). split; reflexivity.
Qed.

Lemma row_order_of_the_price_table_is_irrelevant_witness :
  Permutation [2%Z; 1%Z] [1%Z; 2%Z] /\
  compute_pnl_with_attribution on_market_ledger
    (DataFrame.mk [2%Z; 1%Z] ["X"] (DataFrame.values sample_prices))
    sample_fees None =
  compute_pnl_with_attribution on_market_ledger
    (DataFrame.mk [1%Z; 2%Z] ["X"] (DataFrame.values sample_prices))
    sample_fees None /\
  compute_simple_pnl on_market_ledger
    (DataFrame.mk [2%Z; 1%Z] ["X"] (DataFrame.values sample_prices))
    sample_fees =
  compute_simple_pnl on_market_ledger
    (DataFrame.mk [1%Z; 2%Z] ["X"] (DataFrame.values sample_prices))
    sample_fees.
Proof.
  assert (Hp : Permutation [2%Z; 1%Z] [1%Z; 2%Z]) by apply perm_swap.
  split; [exact Hp|].
  exact (row_order_of_the_price_table_is_irrelevant on_market_ledger
           sample_fees None [2%Z; 1%Z] [1%Z; 2%Z] ["X"]
           (DataFrame.values sample_prices) Hp).
Defined.

(** ** What the engine reads of the ledger *)

Lemma compute_simple_pnl_ok (mm : MarketMaker.t) (prices : DataFrame.t)
    (f : fees) :
  compute_simple_pnl mm prices f =
  Ok (replay_simple_value (DataFrame.sort_index prices) (group_trades mm) f
        (DataFrame.index (DataFrame.sort_index prices)) [] 0).
Proof.
  unfold compute_simple_pnl. apply replay_simple_ok.
  intros d Hd. apply sorted_index_has. exact Hd.
Qed.

Lemma replay_value_ext (prices : DataFrame.t) (tbd tbd' : Z -> list tagged)
    (f : fees) (mult : dict.t R) (dates : list Z) :
  (forall d acc, In d dates ->
     fold_left (apply_trade f) (tbd d) acc =
     fold_left (apply_trade f) (tbd' d) acc) ->
  forall prev_date st,
    replay_value prices tbd f mult dates prev_date st =
    replay_value prices tbd' f mult dates prev_date st.
Proof.
  induction dates as [|d rest IH]; intros H prev_date st;
    cbn [replay_value]; [reflexivity|].
  unfold on_date_value. rewrite (H d _ (or_introl eq_refl)).
  f_equal. apply IH. intros d' acc Hd'. apply H. right. exact Hd'.
Qed.

Lemma replay_simple_value_ext (prices : DataFrame.t)
    (tbd tbd' : Z -> list tagged) (f : fees) (dates : list Z) :
  (forall d acc, In d dates ->
     fold_left (apply_trade_simple f) (tbd d) acc =
     fold_left (apply_trade_simple f) (tbd' d) acc) ->
  forall inventory cash,
    replay_simple_value prices tbd f dates inventory cash =
    replay_simple_value prices tbd' f dates inventory cash.
Proof.
  induction dates as [|d rest IH]; intros H inventory cash;
    cbn [replay_simple_value]; [reflexivity|].
  rewrite (H d _ (or_introl eq_refl)).
  f_equal. apply IH. intros d' acc Hd'. apply H. right. exact Hd'.
Qed.

Lemma filter_filter_implied {A : Type} (p q : A -> bool) (l : list A) :
  (forall x, p x = true -> q x = true) ->
  filter p (filter q l) = filter p l.
Proof.
  intros H. induction l as [|x l IH]; simpl; [reflexivity|].
  destruct (q x) eqn:Eq; simpl.
  - rewrite IH. reflexivity.
  - destruct (p x) eqn:Ep; [|exact IH].
    rewrite (H x Ep) in Eq. discriminate Eq.
Qed.

Lemma group_trades_dated_in_table (prices : DataFrame.t) (mm : MarketMaker.t)
    (d : Z) :
  DataFrame.has_index prices d = true ->
  group_trades (dated_in_table prices mm) d = group_trades mm d.
Proof.
  intros Hd. rewrite !group_trades_at. simpl.
  rewrite !filter_filter_implied; [reflexivity| |];
    intros x Hx; apply Z.eqb_eq in Hx; rewrite Hx; exact Hd.
Qed.

Lemma sorted_date_in_index (prices : DataFrame.t) (d : Z) :
  In d (DataFrame.index (DataFrame.sort_index prices)) ->
  DataFrame.has_index prices d = true.
Proof.
  intros Hd. unfold DataFrame.has_index. rewrite <- mem_Z_sort_dates.
  apply mem_Z_In. exact Hd.
Qed.

(** X13. Trades dated outside the price table are silently ignored by both
    engines: dropping from the two logs every trade whose date is not a
    label of the price table changes neither the attribution table nor the
    equity series. *)
Theorem trades_dated_outside_the_table_are_ignored (mm : MarketMaker.t)
    (prices : DataFrame.t) (f : fees)
    (futures_multipliers : option (dict.t R)) :
  compute_pnl_with_attribution (dated_in_table prices mm) prices f
    futures_multipliers =
  compute_pnl_with_attribution mm prices f futures_multipliers /\
  compute_simple_pnl (dated_in_table prices mm) prices f =
  compute_simple_pnl mm prices f.
Proof.
  rewrite !compute_pnl_with_attribution_ok, !compute_simple_pnl_ok.
  split; [do 3 f_equal|f_equal].
  - apply replay_value_ext. intros d acc Hd.
    rewrite (group_trades_dated_in_table prices mm d
               (sorted_date_in_index prices d Hd)).
    reflexivity.
  - apply replay_simple_value_ext. intros d acc Hd.
    rewrite (group_trades_dated_in_table prices mm d
               (sorted_date_in_index prices d Hd)).
    reflexivity.
Qed.

Lemma booked_action_buy (a : string) :
  String.eqb (booked_action a) "buy" = String.eqb a "buy".
Proof.
  unfold booked_action. destruct (String.eqb a "buy"); reflexivity.
Qed.

Lemma apply_trade_booked (f : fees) (acc : state * flow) (tr : tagged) :
  apply_trade f acc (booked_tagged tr) = apply_trade f acc tr.
Proof.
  destruct acc as [st fl]. destruct tr as [ct|ht]; simpl;
    rewrite booked_action_buy; reflexivity.
Qed.

Lemma apply_trade_simple_booked (f : fees) (acc : dict.t R * R) (tr : tagged) :
  apply_trade_simple f acc (booked_tagged tr) = apply_trade_simple f acc tr.
Proof.
  destruct acc as [inventory cash]. destruct tr as [ct|ht]; simpl;
    rewrite booked_action_buy; reflexivity.
Qed.

Lemma fold_left_map_same {A B : Type} (step : A -> B -> A) (g : B -> B)
    (l : list B) :
  (forall a x, step a (g x) = step a x) ->
  forall a, fold_left step (map g l) a = fold_left step l a.
Proof.
  intros H. induction l as [|x l IH]; intros a; simpl; [reflexivity|].
  rewrite H. apply IH.
Qed.

Lemma filter_map_commute {A : Type} (p : A -> bool) (g : A -> A) (l : list A) :
  (forall x, p (g x) = p x) ->
  filter p (map g l) = map g (filter p l).
Proof.
  intros H. induction l as [|x l IH]; simpl; [reflexivity|].
  rewrite H. destruct (p x); simpl; rewrite IH; reflexivity.
Qed.

Lemma group_trades_booked (mm : MarketMaker.t) (d : Z) :
  group_trades (booked mm) d = map booked_tagged (group_trades mm d).
Proof.
  rewrite !group_trades_at. simpl.
  rewrite map_app, !map_map.
  rewrite (filter_map_commute _ booked_client) by reflexivity.
  rewrite (filter_map_commute _ booked_hedge) by reflexivity.
  rewrite !map_map. reflexivity.
Qed.

(** X14. The engines do not validate actions: any logged action other than
    'buy' is booked as a sale. Replacing every such action by 'sell' in the
    two logs changes neither the attribution table nor the equity series;
    in particular a trade that [add_trade] rejected, which stays in
    [completed_trades], enters the PnL as a sale. *)
Theorem engines_book_unknown_actions_as_sales (mm : MarketMaker.t)
    (prices : DataFrame.t) (f : fees)
    (futures_multipliers : option (dict.t R)) :
  compute_pnl_with_attribution (booked mm) prices f futures_multipliers =
  compute_pnl_with_attribution mm prices f futures_multipliers /\
  compute_simple_pnl (booked mm) prices f = compute_simple_pnl mm prices f.
Proof.
  rewrite !compute_pnl_with_attribution_ok, !compute_simple_pnl_ok.
  split; [do 3 f_equal|f_equal].
  - apply replay_value_ext. intros d acc _.
    rewrite group_trades_booked.
    apply fold_left_map_same. intros a x. apply apply_trade_booked.
  - apply replay_simple_value_ext. intros d acc _.
    rewrite group_trades_booked.
    apply fold_left_map_same. intros a x. apply apply_trade_simple_booked.
Qed.

(** ** Dates without trades *)

Lemma replay_value_entries (prices : DataFrame.t) (tbd : Z -> list tagged)
    (f : fees) (mult : dict.t R) (dates : list Z) :
  forall prev_date st r,
    In r (replay_value prices tbd f mult dates prev_date st) ->
    exists prev' st',
      r = on_date_value prices tbd f mult prev' (entry.date (fst r)) st'.
Proof.
  induction dates as [|d rest IH]; intros prev_date st r Hin;
    cbn [replay_value] in Hin.
  - destruct Hin.
  - destruct Hin as [Hr|Hin].
    + exists prev_date, st. subst r. reflexivity.
    + exact (IH _ _ r Hin).
Qed.

Lemma pack_in (entries : list entry.t) :
  forall prev r,
    In r (pack prev entries) ->
    exists e,
      In e entries /\
      row.date r = entry.date e /\
      row.spread_pnl r = entry.spread_pnl e /\
      row.inventory_pnl r = entry.inventory_pnl e /\
      row.hedge_pnl r = entry.hedge_pnl e /\
      row.client_cost r = entry.client_cost e /\
      row.hedge_cost r = entry.hedge_cost e /\
      row.equity r = entry.equity e.
Proof.
  induction entries as [|e rest IH]; intros prev r Hin; simpl in Hin.
  - destruct Hin.
  - destruct Hin as [Hr|Hin].
    + exists e. subst r. simpl. repeat split; auto.
    + destruct (IH _ r Hin) as (e' & He' & H). exists e'.
      split; [right; exact He'|exact H].
Qed.

Lemma group_trades_none (mm : MarketMaker.t) (d : Z) :
  (forall ct, In ct (MarketMaker.completed_trades mm) ->
     trades.CompletedTrade.date ct <> d) ->
  (forall ht, In ht (MarketMaker.ETF_positions mm) ->
     ETFPosition.date ht <> d) ->
  group_trades mm d = [].
Proof.
  intros Hc Hh. rewrite group_trades_at.
  assert (E1 : filter (fun ct => (trades.CompletedTrade.date ct =? d)%Z)
                 (MarketMaker.completed_trades mm) = []).
  { induction (MarketMaker.completed_trades mm) as [|ct l IH]; simpl;
      [reflexivity|].
    destruct (Z.eqb_spec (trades.CompletedTrade.date ct) d) as [E|_].
    - exfalso. apply (Hc ct); [left; reflexivity|exact E].
    - apply IH. intros x Hx. apply Hc. right. exact Hx. }
  assert (E2 : filter (fun ht => (ETFPosition.date ht =? d)%Z)
                 (MarketMaker.ETF_positions mm) = []).
  { induction (MarketMaker.ETF_positions mm) as [|ht l IH]; simpl;
      [reflexivity|].
    destruct (Z.eqb_spec (ETFPosition.date ht) d) as [E|_].
    - exfalso. apply (Hh ht); [left; reflexivity|exact E].
    - apply IH. intros x Hx. apply Hh. right. exact Hx. }
  rewrite E1, E2. reflexivity.
Qed.

(** X16. A date without trades books no flow: if no logged trade is dated
    [d], every row of date [d] has spread_pnl, client_cost, hedge_cost and
    total_cost equal to 0, and its total_pnl is inventory_pnl + hedge_pnl. *)
Theorem a_date_without_trades_books_no_flow (mm : MarketMaker.t)
    (prices : DataFrame.t) (f : fees)
    (futures_multipliers : option (dict.t R)) (d : Z) :
  (forall ct, In ct (MarketMaker.completed_trades mm) ->
     trades.CompletedTrade.date ct <> d) ->
  (forall ht, In ht (MarketMaker.ETF_positions mm) ->
     ETFPosition.date ht <> d) ->
  exists table,
    compute_pnl_with_attribution mm prices f futures_multipliers = Ok table /\
    forall r,
      In r table -> row.date r = d ->
      row.spread_pnl r = 0 /\ row.client_cost r = 0 /\ row.hedge_cost r = 0 /\
      row.total_cost r = 0 /\
      row.total_pnl r = row.inventory_pnl r + row.hedge_pnl r.
Proof.
  intros Hc Hh. eexists. split; [apply compute_pnl_with_attribution_ok|].
  intros r Hr Hd.
  pose proof (pack_total_pnl
                (map fst
                   (replay_value (DataFrame.sort_index prices)
                      (group_trades mm) f
                      (multipliers_or_empty futures_multipliers)
                      (DataFrame.index (DataFrame.sort_index prices)) None
                      initial_state)) None) as Htot.
  rewrite Forall_forall in Htot. destruct (Htot r Hr) as [Hcost Hpnl].
  destruct (pack_in _ _ r Hr) as (e & He & Hdate & Hsp & _ & _ & Hcc & Hhc & _).
  apply in_map_iff in He. destruct He as (x & Hx & Hin).
  destruct (replay_value_entries _ _ _ _ _ _ _ x Hin) as (prev' & st' & Hstep).
  subst e. rewrite Hdate in Hd. rewrite Hd in Hstep.
  assert (Hz : entry.spread_pnl (fst x) = 0 /\ entry.client_cost (fst x) = 0
               /\ entry.hedge_cost (fst x) = 0).
  { rewrite Hstep. unfold on_date_value.
    rewrite (group_trades_none mm d Hc Hh). simpl. auto. }
  destruct Hz as (Z1 & Z2 & Z3).
  rewrite Hpnl, Hcost, Hsp, Hcc, Hhc, Z1, Z2, Z3.
  repeat split; ring.
Qed.

Lemma a_date_without_trades_books_no_flow_witness :
  (forall ct, In ct (MarketMaker.completed_trades on_market_ledger) ->
     trades.CompletedTrade.date ct <> 2%Z) /\
  (forall ht, In ht (MarketMaker.ETF_positions on_market_ledger) ->
     ETFPosition.date ht <> 2%Z) /\
  exists table,
    compute_pnl_with_attribution on_market_ledger sample_prices sample_fees
      None = Ok table /\
    forall r,
      In r table -> row.date r = 2%Z ->
      row.spread_pnl r = 0 /\ row.client_cost r = 0 /\ row.hedge_cost r = 0 /\
      row.total_cost r = 0 /\
      row.total_pnl r = row.inventory_pnl r + row.hedge_pnl r.
Proof.
  assert (Hc : forall ct,
             In ct (MarketMaker.completed_trades on_market_ledger) ->
             trades.CompletedTrade.date ct <> 2%Z).
  { intros ct [H|[]]. subst ct. simpl. discriminate. }
  assert (Hh : forall ht,
             In ht (MarketMaker.ETF_positions on_market_ledger) ->
             ETFPosition.date ht <> 2%Z).
  { intros ht [H|[]]. subst ht. simpl. discriminate. }
  split; [exact Hc|]. split; [exact Hh|].
  exact (a_date_without_trades_books_no_flow on_market_ledger sample_prices
           sample_fees None 2%Z Hc Hh).
Defined.

(** ** Fees *)

Lemma apply_trade_fees (f : fees) (tr : tagged) (st st0 : state)
    (fl fl0 : flow) :
  inventory_main st = inventory_main st0 ->
  inventory_hedge st = inventory_hedge st0 ->
  sp fl = sp fl0 ->
  inventory_main (fst (apply_trade f (st, fl) tr)) =
    inventory_main (fst (apply_trade no_fees (st0, fl0) tr)) /\
  inventory_hedge (fst (apply_trade f (st, fl) tr)) =
    inventory_hedge (fst (apply_trade no_fees (st0, fl0) tr)) /\
  sp (snd (apply_trade f (st, fl) tr)) =
    sp (snd (apply_trade no_fees (st0, fl0) tr)) /\
  cc (snd (apply_trade no_fees (st0, fl0) tr)) = cc fl0 /\
  hc (snd (apply_trade no_fees (st0, fl0) tr)) = hc fl0.
Proof.
  intros Hm Hh Hs. destruct tr as [ct|ht]; simpl;
    unfold transaction_cost; simpl; rewrite Hm, Hh, Hs;
    repeat split; ring.
Qed.

Lemma fold_trades_fees (f : fees) (l : list tagged) :
  forall (st st0 : state) (fl fl0 : flow),
    inventory_main st = inventory_main st0 ->
    inventory_hedge st = inventory_hedge st0 ->
    sp fl = sp fl0 ->
    inventory_main (fst (fold_left (apply_trade f) l (st, fl))) =
      inventory_main (fst (fold_left (apply_trade no_fees) l (st0, fl0))) /\
    inventory_hedge (fst (fold_left (apply_trade f) l (st, fl))) =
      inventory_hedge (fst (fold_left (apply_trade no_fees) l (st0, fl0))) /\
    sp (snd (fold_left (apply_trade f) l (st, fl))) =
      sp (snd (fold_left (apply_trade no_fees) l (st0, fl0))) /\
    cc (snd (fold_left (apply_trade no_fees) l (st0, fl0))) = cc fl0 /\
    hc (snd (fold_left (apply_trade no_fees) l (st0, fl0))) = hc fl0.
Proof.
  induction l as [|tr rest IH]; intros st st0 fl fl0 Hm Hh Hs;
    cbn [fold_left].
  - simpl. repeat split; auto.
  - destruct (apply_trade_fees f tr st st0 fl fl0 Hm Hh Hs)
      as (Hm' & Hh' & Hs' & Hcc & Hhc).
    destruct (apply_trade f (st, fl) tr) as [st' fl'].
    destruct (apply_trade no_fees (st0, fl0) tr) as [st0' fl0'].
    cbn [fst snd] in *.
    destruct (IH st' st0' fl' fl0' Hm' Hh' Hs')
      as (Hm'' & Hh'' & Hs'' & Hcc' & Hhc').
    repeat split; try assumption; congruence.
Qed.

Lemma replay_fees (prices : DataFrame.t) (tbd : Z -> list tagged) (f : fees)
    (mult : dict.t R) (dates : list Z) :
  forall (prev_date : option Z) (st st0 : state) (prev prev0 : option row.t),
    inventory_main st = inventory_main st0 ->
    inventory_hedge st = inventory_hedge st0 ->
    Forall2 differs_by_costs
      (pack prev
         (map fst (replay_value prices tbd f mult dates prev_date st)))
      (pack prev0
         (map fst (replay_value prices tbd no_fees mult dates prev_date st0))).
Proof.
  induction dates as [|d rest IH];
    intros prev_date st st0 prev prev0 Hm Hh;
    cbn [replay_value map pack].
  - constructor.
  - destruct (fold_trades_fees f (tbd d) st st0 (mk_flow 0 0 0)
                (mk_flow 0 0 0) Hm Hh eq_refl)
      as (Hm' & Hh' & Hs' & Hcc & Hhc).
    cbn [sp cc hc] in Hcc, Hhc.
    assert (Hmv : moves prices mult prev_date d st
                  = moves prices mult prev_date d st0).
    { unfold moves. rewrite Hm, Hh. reflexivity. }
    constructor.
    + unfold differs_by_costs, on_date_value. cbn [fst snd].
      cbn [row.date row.spread_pnl row.inventory_pnl row.hedge_pnl
           row.total_cost row.total_pnl
           entry.date entry.spread_pnl entry.inventory_pnl entry.hedge_pnl
           entry.client_cost entry.hedge_cost].
      rewrite Hmv, Hs', Hcc, Hhc.
      repeat split; ring.
    + apply IH.
      * unfold on_date_value. cbn [snd]. exact Hm'.
      * unfold on_date_value. cbn [snd]. exact Hh'.
Qed.

(** X18. Fees touch the costs only. For every ledger, price table and
    multiplier table the engine returns with and without fees, and, date by
    date, the two tables show the same spread, inventory and hedge PnL;
    the fee-free row has no cost, and the row with fees has the fee-free
    total_pnl less its own total_cost. *)
Theorem fees_only_lower_pnl_by_the_costs (mm : MarketMaker.t)
    (prices : DataFrame.t) (f : fees)
    (futures_multipliers : option (dict.t R)) :
  exists table table0,
    compute_pnl_with_attribution mm prices f futures_multipliers = Ok table /\
    compute_pnl_with_attribution mm prices no_fees futures_multipliers
      = Ok table0 /\
    Forall2 differs_by_costs table table0.
Proof.
  do 2 eexists.
  split; [apply compute_pnl_with_attribution_ok|].
  split; [apply compute_pnl_with_attribution_ok|].
  apply replay_fees; reflexivity.
Qed.

(** ** The cost model *)

(** X19. The transaction cost ignores the sign of the volume, and for a
    non-negative price and non-negative fees it is never negative. *)
Theorem transaction_cost_is_even_and_non_negative
    (volume price fee_rate fee_per_unit : R) :
  0 <= price -> 0 <= fee_rate -> 0 <= fee_per_unit ->
  transaction_cost (- volume) price fee_rate fee_per_unit =
    transaction_cost volume price fee_rate fee_per_unit /\
  0 <= transaction_cost volume price fee_rate fee_per_unit.
Proof.
  intros Hp Hr Hu. unfold transaction_cost. rewrite Rabs_Ropp.
  split; [reflexivity|].
  pose proof (Rabs_pos volume) as Hv.
  assert (H1 : 0 <= Rabs volume * price) by (apply Rmult_le_pos; assumption).
  assert (H2 : 0 <= fee_rate * (Rabs volume * price))
    by (apply Rmult_le_pos; assumption).
  assert (H3 : 0 <= fee_per_unit * Rabs volume)
    by (apply Rmult_le_pos; assumption).
  lra.
Qed.

Lemma transaction_cost_is_even_and_non_negative_witness :
  0 <= 99 /\ 0 <= 1 / 1000 /\ 0 <= 1 / 100 /\
  transaction_cost (- 10) 99 (1 / 1000) (1 / 100) =
    transaction_cost 10 99 (1 / 1000) (1 / 100) /\
  0 <= transaction_cost 10 99 (1 / 1000) (1 / 100).
Proof.
  assert (H1 : 0 <= 99) by lra.
  assert (H2 : 0 <= 1 / 1000) by lra.
  assert (H3 : 0 <= 1 / 100) by lra.
  repeat (split; [assumption|]).
  exact (transaction_cost_is_even_and_non_negative 10 99 (1 / 1000) (1 / 100)
           H1 H2 H3).
Defined.

(** * The venue and the ledger together *)



(** ** Multipliers *)

Lemma replay_value_multipliers (prices : DataFrame.t)
    (tbd : Z -> list tagged) (f : fees) (mult mult' : dict.t R)
    (dates : list Z) :
  (forall ticker, dict.get mult ticker 1 = dict.get mult' ticker 1) ->
  forall prev_date st,
    replay_value prices tbd f mult dates prev_date st =
    replay_value prices tbd f mult' dates prev_date st.
Proof.
  intros H.
  assert (Hbv : forall d st,
             book_value prices mult d st = book_value prices mult' d st).
  { intros d st. unfold book_value. f_equal.
    apply weighted_ext. intros t _. rewrite H. reflexivity. }
  assert (Hmv : forall prev d st,
             moves prices mult prev d st = moves prices mult' prev d st).
  { intros prev d st. unfold moves. destruct prev as [p|]; [|reflexivity].
    f_equal. apply weighted_ext. intros t _. rewrite H. reflexivity. }
  induction dates as [|d rest IH]; intros prev_date st; cbn [replay_value];
    [reflexivity|].
  unfold on_date_value. rewrite Hmv, Hbv, IH. reflexivity.
Qed.

Lemma get_unit_multiplier (m : dict.t R) (ticker : string) :
  (forall k v, In (k, v) m -> v = 1) -> dict.get m ticker 1 = 1.
Proof.
  intros H. unfold dict.get.
  induction m as [|[k v] rest IH]; simpl; [reflexivity|].
  destruct (String.eqb k ticker).
  - apply (H k v). left. reflexivity.
  - apply IH. intros k' v' Hin. apply (H k' v'). right. exact Hin.
Qed.

(** X22. A multiplier absent from the table counts as 1: a multiplier table
    all of whose entries are 1 gives the attribution table that no
    multiplier table gives. *)
Theorem unit_multipliers_change_nothing (mm : MarketMaker.t)
    (prices : DataFrame.t) (f : fees) (m : dict.t R) :
  (forall k v, In (k, v) m -> v = 1) ->
  compute_pnl_with_attribution mm prices f (Some m) =
  compute_pnl_with_attribution mm prices f None.
Proof.
  intros H. rewrite !compute_pnl_with_attribution_ok. do 3 f_equal.
  apply replay_value_multipliers. intros ticker.
  rewrite (get_unit_multiplier (multipliers_or_empty (Some m)) ticker).
  - reflexivity.
  - intros k v Hin. apply (H k v). destruct m; [destruct Hin|exact Hin].
Qed.

Lemma unit_multipliers_change_nothing_witness :
  (forall k v, In (k, v) unit_multipliers -> v = 1) /\
  compute_pnl_with_attribution on_market_ledger sample_prices sample_fees
    (Some unit_multipliers) =
  compute_pnl_with_attribution on_market_ledger sample_prices sample_fees None.
Proof.
  assert (H : forall k v, In (k, v) unit_multipliers -> v = 1).
  { intros k v [E|[E|[]]]; inversion E; reflexivity. }
  split; [exact H|].
  exact (unit_multipliers_change_nothing on_market_ledger sample_prices
           sample_fees unit_multipliers H).
Defined.

(** * The counterparty model *)



(** * The reporting helpers *)

Lemma insert_by_date_permutation {A : Type} (date : A -> Z) (x : A)
    (l : list A) :
  Permutation (insert_by_date date x l) (x :: l).
Proof.
  induction l as [|y l IH]; simpl; [reflexivity|].
  destruct (date x <=? date y)%Z; [reflexivity|].
  rewrite IH. apply perm_swap.
Qed.

Lemma sort_by_date_permutation (A : Type) (date : A -> Z) (l : list A) :
  Permutation (sort_by_date A date l) l.
Proof.
  unfold sort_by_date.
  induction l as [|x l IH]; simpl; [reflexivity|].
  rewrite insert_by_date_permutation, IH. reflexivity.
Qed.

Lemma insert_by_date_ascending {A : Type} (date : A -> Z) (x : A)
    (l : list A) :
  ascending (map date l) -> ascending (map date (insert_by_date date x l)).
Proof.
  induction l as [|y l IH]; intros Hl; simpl; [exact I|].
  destruct (Z.leb_spec (date x) (date y)) as [Hle|Hgt].
  - split; [exact Hle|exact Hl].
  - destruct l as [|z l]; simpl in *.
    + split; [lia|exact I].
    + destruct Hl as [Hyz Hl]. specialize (IH Hl).
      destruct (Z.leb_spec (date x) (date z)); simpl in *;
        (split; [lia|]); assumption.
Qed.

Lemma sort_by_date_ascending (A : Type) (date : A -> Z) (l : list A) :
  ascending (map date (sort_by_date A date l)).
Proof.
  unfold sort_by_date.
  induction l as [|x l IH]; simpl; [exact I|].
  apply insert_by_date_ascending. exact IH.
Qed.

Lemma quote_records_length (ticker : string)
    (l : list trades.QuotedTrade.t) :
  forall records,
    List.length (visu.quote_records ticker l records) =
    (List.length records
     + List.length
         (filter (fun qt => String.eqb (trades.QuotedTrade.ticker qt) ticker)
            l))%nat.
Proof.
  induction l as [|qt rest IH]; intros records; simpl; [lia|].
  destruct (String.eqb (trades.QuotedTrade.ticker qt) ticker); simpl.
  - rewrite IH, length_app. simpl. lia.
  - apply IH.
Qed.

Lemma inventory_records_length (ticker : string)
    (l : list trades.CompletedTrade.t) :
  forall run records,
    List.length (visu.inventory_records ticker l run records) =
    (List.length records
     + List.length
         (filter
            (fun ct => String.eqb (trades.CompletedTrade.ticker ct) ticker)
            l))%nat.
Proof.
  induction l as [|ct rest IH]; intros run records; simpl; [lia|].
  destruct (String.eqb (trades.CompletedTrade.ticker ct) ticker); simpl.
  - rewrite IH, length_app. simpl. lia.
  - apply IH.
Qed.

Lemma ETF_inventory_records_length (ticker : string)
    (l : list ETFPosition.t) :
  forall run records,
    List.length (visu.ETF_inventory_records ticker l run records) =
    (List.length records
     + List.length
         (filter (fun ht => String.eqb (ETFPosition.ticker ht) ticker) l))%nat.
Proof.
  induction l as [|ht rest IH]; intros run records; simpl; [lia|].
  destruct (String.eqb (ETFPosition.ticker ht) ticker); simpl.
  - rewrite IH, length_app. simpl. lia.
  - apply IH.
Qed.

Section Reports.

Variable sort_values : forall A : Type, (A -> Z) -> list A -> list A.

(** What [sort_values("date")] does, whatever the algorithm: it rearranges
    the rows, and leaves their dates in ascending order. *)
Hypothesis sort_values_permutes :
  forall (A : Type) (date : A -> Z) (l : list A),
    Permutation (sort_values A date l) l.

Hypothesis sort_values_ascending :
  forall (A : Type) (date : A -> Z) (l : list A),
    ascending (map date (sort_values A date l)).

Lemma frame_sorted {A B : Type} (date : A -> Z) (records : list A)
    (own : list B) :
  List.length records = List.length own ->
  (visu.frame sort_values date records = Raise KeyError <-> own = []) /\
  (own <> [] ->
   exists rows,
     visu.frame sort_values date records = Ok rows /\
     Permutation rows records /\
     ascending (map date rows) /\
     List.length rows = List.length own).
Proof.
  intros Hlen. destruct records as [|x records], own as [|y own];
    simpl in Hlen; try discriminate Hlen.
  - split; [split; reflexivity|]. intros H. contradiction.
  - split; [split; intros H; discriminate H|]. intros _.
    exists (sort_values A date (x :: records)).
    split; [reflexivity|].
    split; [apply sort_values_permutes|].
    split; [apply sort_values_ascending|].
    rewrite (Permutation_length (sort_values_permutes A date (x :: records))).
    exact Hlen.
Qed.

(** X24. The three frame builders. [get_quotes_df], [get_inventory_df] and
    [get_ETF_inventory_df] raise KeyError exactly when the ledger has
    logged no quote, no client trade, no hedge trade for the ticker;
    otherwise each returns the records its loop has built, rearranged so
    that their dates ascend, one row per logged item of that ticker. *)
Theorem frames_fail_exactly_without_records (mm : MarketMaker.t)
    (ticker : string) :
  ((visu.get_quotes_df sort_values mm ticker = Raise KeyError
    <-> quotes_of ticker mm = []) /\
   (quotes_of ticker mm <> [] ->
    exists rows,
      visu.get_quotes_df sort_values mm ticker = Ok rows /\
      Permutation rows
        (visu.quote_records ticker (MarketMaker.quoted_trades mm) []) /\
      ascending (map visu.quote_record.date rows) /\
      List.length rows = List.length (quotes_of ticker mm))) /\
  ((visu.get_inventory_df sort_values mm ticker = Raise KeyError
    <-> client_trades_of ticker mm = []) /\
   (client_trades_of ticker mm <> [] ->
    exists rows,
      visu.get_inventory_df sort_values mm ticker = Ok rows /\
      Permutation rows
        (visu.inventory_records ticker (MarketMaker.completed_trades mm) 0
           []) /\
      ascending (map visu.inventory_record.date rows) /\
      List.length rows = List.length (client_trades_of ticker mm))) /\
  ((visu.get_ETF_inventory_df sort_values mm ticker = Raise KeyError
    <-> hedge_trades_of ticker mm = []) /\
   (hedge_trades_of ticker mm <> [] ->
    exists rows,
      visu.get_ETF_inventory_df sort_values mm ticker = Ok rows /\
      Permutation rows
        (visu.ETF_inventory_records ticker (MarketMaker.ETF_positions mm) 0
           []) /\
      ascending (map visu.inventory_record.date rows) /\
      List.length rows = List.length (hedge_trades_of ticker mm))).
Proof.
  split; [|split].
  - pose proof (quote_records_length ticker (MarketMaker.quoted_trades mm) [])
      as Hlen.
    simpl in Hlen.
    exact (frame_sorted visu.quote_record.date _ (quotes_of ticker mm) Hlen).
  - pose proof (inventory_records_length ticker
                  (MarketMaker.completed_trades mm) 0 []) as Hlen.
    simpl in Hlen.
    exact (frame_sorted visu.inventory_record.date _
             (client_trades_of ticker mm) Hlen).
  - pose proof (ETF_inventory_records_length ticker
                  (MarketMaker.ETF_positions mm) 0 []) as Hlen.
    simpl in Hlen.
    exact (frame_sorted visu.inventory_record.date _
             (hedge_trades_of ticker mm) Hlen).
Qed.

End Reports.

Lemma frames_fail_exactly_without_records_witness :
  (forall (A : Type) (date : A -> Z) (l : list A),
     Permutation (sort_by_date A date l) l) /\
  (forall (A : Type) (date : A -> Z) (l : list A),
     ascending (map date (sort_by_date A date l))) /\
  ((visu.get_quotes_df sort_by_date reported_ledger "X" = Raise KeyError
    <-> quotes_of "X" reported_ledger = []) /\
   (quotes_of "X" reported_ledger <> [] ->
    exists rows,
      visu.get_quotes_df sort_by_date reported_ledger "X" = Ok rows /\
      Permutation rows
        (visu.quote_records "X" (MarketMaker.quoted_trades reported_ledger)
           []) /\
      ascending (map visu.quote_record.date rows) /\
      List.length rows = List.length (quotes_of "X" reported_ledger))) /\
  ((visu.get_inventory_df sort_by_date reported_ledger "X" = Raise KeyError
    <-> client_trades_of "X" reported_ledger = []) /\
   (client_trades_of "X" reported_ledger <> [] ->
    exists rows,
      visu.get_inventory_df sort_by_date reported_ledger "X" = Ok rows /\
      Permutation rows
        (visu.inventory_records "X"
           (MarketMaker.completed_trades reported_ledger) 0 []) /\
      ascending (map visu.inventory_record.date rows) /\
      List.length rows = List.length (client_trades_of "X" reported_ledger))) /\
  ((visu.get_ETF_inventory_df sort_by_date reported_ledger "X"
      = Raise KeyError
    <-> hedge_trades_of "X" reported_ledger = []) /\
   (hedge_trades_of "X" reported_ledger <> [] ->
    exists rows,
      visu.get_ETF_inventory_df sort_by_date reported_ledger "X" = Ok rows /\
      Permutation rows
        (visu.ETF_inventory_records "X"
           (MarketMaker.ETF_positions reported_ledger) 0 []) /\
      ascending (map visu.inventory_record.date rows) /\
      List.length rows = List.length (hedge_trades_of "X" reported_ledger))).
Proof.
  split; [exact sort_by_date_permutation|].
  split; [exact sort_by_date_ascending|].
  exact (frames_fail_exactly_without_records sort_by_date
           sort_by_date_permutation sort_by_date_ascending reported_ledger
           "X").
Defined.

(** ** Running inventories *)

Lemma inventory_records_acc (ticker : string)
    (l : list trades.CompletedTrade.t) :
  forall run records,
    visu.inventory_records ticker l run records =
    records ++ visu.inventory_records ticker l run [].
Proof.
  induction l as [|ct rest IH]; intros run records; simpl.
  - rewrite app_nil_r. reflexivity.
  - destruct (String.eqb (trades.CompletedTrade.ticker ct) ticker).
    + rewrite IH. rewrite (IH _ [_]). rewrite <- app_assoc. reflexivity.
    + apply IH.
Qed.

Lemma inventory_records_own (ticker : string)
    (l : list trades.CompletedTrade.t) :
  forall run records,
    visu.inventory_records ticker l run records =
    visu.inventory_records ticker
      (filter (fun ct => String.eqb (trades.CompletedTrade.ticker ct) ticker) l)
      run records.
Proof.
  induction l as [|ct rest IH]; intros run records; simpl; [reflexivity|].
  destruct (String.eqb (trades.CompletedTrade.ticker ct) ticker) eqn:E; simpl.
  - rewrite E. apply IH.
  - apply IH.
Qed.

Lemma inventory_records_nth (ticker : string)
    (own : list trades.CompletedTrade.t) :
  Forall (fun ct => String.eqb (trades.CompletedTrade.ticker ct) ticker = true)
    own ->
  forall run n,
    nth_error (visu.inventory_records ticker own run []) n =
    option_map
      (fun ct =>
         let running :=
           fold_left
             (fun run ct =>
                visu.running_step run (trades.CompletedTrade.mm_action ct)
                  (trades.CompletedTrade.trade_volume ct))
             (firstn (S n) own) run in
         visu.inventory_record.mk (trades.CompletedTrade.date ct) running
           (running * trades.CompletedTrade.trade_price ct))
      (nth_error own n).
Proof.
  induction 1 as [|ct rest Hct _ IH]; intros run n.
  - destruct n; reflexivity.
  - cbn [visu.inventory_records]. rewrite Hct.
    rewrite inventory_records_acc. destruct n as [|n].
    + reflexivity.
    + cbn [app nth_error]. rewrite IH. reflexivity.
Qed.

Lemma ETF_inventory_records_acc (ticker : string) (l : list ETFPosition.t) :
  forall run records,
    visu.ETF_inventory_records ticker l run records =
    records ++ visu.ETF_inventory_records ticker l run [].
Proof.
  induction l as [|ht rest IH]; intros run records; simpl.
  - rewrite app_nil_r. reflexivity.
  - destruct (String.eqb (ETFPosition.ticker ht) ticker).
    + rewrite IH. rewrite (IH _ [_]). rewrite <- app_assoc. reflexivity.
    + apply IH.
Qed.

Lemma ETF_inventory_records_own (ticker : string) (l : list ETFPosition.t) :
  forall run records,
    visu.ETF_inventory_records ticker l run records =
    visu.ETF_inventory_records ticker
      (filter (fun ht => String.eqb (ETFPosition.ticker ht) ticker) l)
      run records.
Proof.
  induction l as [|ht rest IH]; intros run records; simpl; [reflexivity|].
  destruct (String.eqb (ETFPosition.ticker ht) ticker) eqn:E; simpl.
  - rewrite E. apply IH.
  - apply IH.
Qed.

Lemma ETF_inventory_records_nth (ticker : string) (own : list ETFPosition.t) :
  Forall (fun ht => String.eqb (ETFPosition.ticker ht) ticker = true) own ->
  forall run n,
    nth_error (visu.ETF_inventory_records ticker own run []) n =
    option_map
      (fun ht =>
         let running :=
           fold_left
             (fun run ht =>
                visu.running_step run (ETFPosition.action ht)
                  (ETFPosition.trade_volume ht))
             (firstn (S n) own) run in
         visu.inventory_record.mk (ETFPosition.date ht) running
           (running * ETFPosition.trade_price ht))
      (nth_error own n).
Proof.
  induction 1 as [|ht rest Hht _ IH]; intros run n.
  - destruct n; reflexivity.
  - cbn [visu.ETF_inventory_records]. rewrite Hht.
    rewrite ETF_inventory_records_acc. destruct n as [|n].
    + reflexivity.
    + cbn [app nth_error]. rewrite IH. reflexivity.
Qed.

Lemma filter_all {A : Type} (p : A -> bool) (l : list A) :
  Forall (fun x => p x = true) (filter p l).
Proof.
  apply Forall_forall. intros x Hx. apply filter_In in Hx. apply Hx.
Qed.

(** X25. The inventory records are running totals in log order. The n-th
    record built for a ticker, from the client log or from the hedge log,
    carries the date of the n-th logged trade of that ticker, as
    inventory_volume the running inventory after the first n+1 of them
    (buy adds the volume, sell subtracts it, any other action leaves it
    unchanged), and as inventory_value that running inventory times the
    trade's own price; there is no record beyond the logged trades. *)
Theorem inventory_records_are_running_totals (mm : MarketMaker.t)
    (ticker : string) (n : nat) :
  nth_error
    (visu.inventory_records ticker (MarketMaker.completed_trades mm) 0 []) n =
  option_map
    (fun ct =>
       visu.inventory_record.mk (trades.CompletedTrade.date ct)
         (client_running (firstn (S n) (client_trades_of ticker mm)))
         (client_running (firstn (S n) (client_trades_of ticker mm))
          * trades.CompletedTrade.trade_price ct))
    (nth_error (client_trades_of ticker mm) n) /\
  nth_error
    (visu.ETF_inventory_records ticker (MarketMaker.ETF_positions mm) 0 []) n =
  option_map
    (fun ht =>
       visu.inventory_record.mk (ETFPosition.date ht)
         (hedge_running (firstn (S n) (hedge_trades_of ticker mm)))
         (hedge_running (firstn (S n) (hedge_trades_of ticker mm))
          * ETFPosition.trade_price ht))
    (nth_error (hedge_trades_of ticker mm) n).
Proof.
  split.
  - rewrite inventory_records_own.
    apply (inventory_records_nth ticker _ (filter_all _ _) 0 n).
  - rewrite ETF_inventory_records_own.
    apply (ETF_inventory_records_nth ticker _ (filter_all _ _) 0 n).
Qed.

(** * Properties on binary64 numbers *)

Import binary64.
Import binary64.market_maker.
Import binary64.pnl.

(** ** The ledger *)

Lemma lookup_mutate_stored64 (d : dict.t Position.t) (k k' : string)
    (f : float -> float) :
  dict.lookup (mutate_stored d k f) k' =
  if String.eqb k k' then option_map (binary64.bump f) (dict.lookup d k')
  else dict.lookup d k'.
Proof.
  induction d as [|[k0 p0] d IH]; simpl.
  - destruct (String.eqb k k'); reflexivity.
  - destruct (String.eqb k0 k) eqn:E0; simpl.
    + apply String.eqb_eq in E0; subst k0.
      destruct (String.eqb k k'); reflexivity.
    + destruct (String.eqb k0 k') eqn:E1.
      * apply String.eqb_eq in E1; subst k0.
        rewrite String.eqb_sym, E0. reflexivity.
      * apply IH.
Qed.

Lemma lookup_after_update64 (d : dict.t Position.t) (k k' : string)
    (f : float -> float) :
  dict.lookup
    (let '(positions, pos) := mutate d (positions_get d k) f in
     positions_store positions k pos) k' =
  if String.eqb k k'
  then Some (binary64.bump f (binary64.position_or_new d k))
  else dict.lookup d k'.
Proof.
  unfold positions_get, binary64.position_or_new. rewrite contains_lookup.
  destruct (dict.lookup d k) as [p|] eqn:Ek; simpl.
  - rewrite lookup_mutate_stored64, String.eqb_refl, Ek. simpl.
    rewrite lookup_setitem.
    destruct (String.eqb k k') eqn:E; [reflexivity|].
    rewrite lookup_mutate_stored64, E. reflexivity.
  - apply lookup_setitem.
Qed.

Lemma valid_action_cases64 (a : string) :
  valid_action a = true -> a = "buy" \/ a = "sell".
Proof.
  unfold valid_action. intros H. apply orb_true_iff in H.
  destruct H as [H|H]; apply String.eqb_eq in H; auto.
Qed.

(** One accepted event moves the binding of its ticker by [apply_fill] and
    leaves every other binding alone. *)
Lemma ingest_valid64 (self : MarketMaker.t) (e : event) :
  valid_action (event_action e) = true ->
  exists self' msg,
    ingest self e = (self', Ok msg) /\
    forall ticker,
      dict.lookup (MarketMaker.current_positions self') ticker =
      if String.eqb (event_ticker e) ticker
      then Some (binary64.bump (fun v => binary64.apply_fill v e)
                   (binary64.position_or_new
                      (MarketMaker.current_positions self) (event_ticker e)))
      else dict.lookup (MarketMaker.current_positions self) ticker.
Proof.
  intros Hv. apply valid_action_cases64 in Hv.
  destruct e as [trade|executed]; unfold binary64.apply_fill; simpl in *.
  - unfold MarketMaker.add_trade.
    destruct Hv as [Hv|Hv]; rewrite Hv; simpl;
      match goal with
      | |- context [mutate ?d (positions_get ?d ?k) ?f] =>
          pose proof (fun k' => lookup_after_update64 d k k' f) as Hl;
          destruct (mutate d (positions_get d k) f) as [positions pos]
      end;
      do 2 eexists; (split; [reflexivity|]); intros ticker; simpl;
      rewrite Hl; destruct (String.eqb _ ticker); reflexivity.
  - unfold MarketMaker.update_ETF_position.
    destruct Hv as [Hv|Hv]; rewrite Hv; simpl;
      match goal with
      | |- context [mutate ?d (positions_get ?d ?k) ?f] =>
          pose proof (fun k' => lookup_after_update64 d k k' f) as Hl;
          destruct (mutate d (positions_get d k) f) as [positions pos]
      end;
      do 2 eexists; (split; [reflexivity|]); intros ticker; simpl;
      rewrite Hl; destruct (String.eqb _ ticker); reflexivity.
Qed.

Lemma accumulated_untraded (ticker : string) (events : list event)
    (start : float) :
  traded ticker events = false ->
  binary64.accumulated ticker events start = start.
Proof.
  unfold binary64.accumulated, binary64.fills_of, traded.
  induction events as [|e rest IH]; simpl; [reflexivity|].
  destruct (String.eqb (event_ticker e) ticker); simpl;
    [discriminate|exact IH].
Qed.

Lemma ingest_all_accumulates (events : list event) :
  forall self : MarketMaker.t,
    forallb (fun e => valid_action (event_action e)) events = true ->
    exists self',
      ingest_all self events = (self', Ok tt) /\
      forall ticker,
        dict.lookup (MarketMaker.current_positions self') ticker =
        if traded ticker events
        then
          Some (Position.mk
                  (Position.ticker
                     (binary64.position_or_new
                        (MarketMaker.current_positions self) ticker))
                  (binary64.accumulated ticker events
                     (Position.position_volume
                        (binary64.position_or_new
                           (MarketMaker.current_positions self) ticker))))
        else dict.lookup (MarketMaker.current_positions self) ticker.
Proof.
  induction events as [|e rest IH]; intros self Hv.
  - exists self. split; [reflexivity|]. intros ticker. reflexivity.
  - cbn [forallb] in Hv. apply andb_true_iff in Hv. destruct Hv as [He Hrest].
    destruct (ingest_valid64 self e He) as (self1 & msg & Hrun & Hstep).
    destruct (IH self1 Hrest) as (self' & Hall & Hfinal).
    exists self'. cbn [ingest_all]. rewrite Hrun. split; [exact Hall|].
    intros ticker. rewrite Hfinal.
    unfold binary64.position_or_new at 1 2. rewrite (Hstep ticker).
    unfold traded. cbn [existsb].
    unfold binary64.accumulated, binary64.fills_of. cbn [filter].
    destruct (String.eqb (event_ticker e) ticker) eqn:E; cbn [orb fold_left].
    + apply String.eqb_eq in E. subst ticker.
      fold (traded (event_ticker e) rest).
      destruct (traded (event_ticker e) rest) eqn:T.
      * reflexivity.
      * pose proof (accumulated_untraded (event_ticker e) rest
                      (binary64.apply_fill
                         (Position.position_volume
                            (binary64.position_or_new
                               (MarketMaker.current_positions self)
                               (event_ticker e))) e) T) as Hu.
        unfold binary64.accumulated, binary64.fills_of in Hu. rewrite Hu.
        reflexivity.
    + reflexivity.
Qed.

(** C4, as stated, fails: the position depends on the order of ingestion.
    Buying 2^53, buying 1 and selling 2^53 leaves 0.0, because 2^53 + 1
    rounds back to 2^53; the same three fills with the sale second leave
    1.0, which is their signed sum. *)
Lemma positions_depend_on_order_counterexample :
  Permutation [big_buy; small_buy; big_sell] [big_buy; big_sell; small_buy] /\
  (exists self',
     ingest_all new_ledger [big_buy; small_buy; big_sell] = (self', Ok tt) /\
     dict.lookup (MarketMaker.current_positions self') "X" =
     Some (Position.mk "X" 0)) /\
  (exists self'',
     ingest_all new_ledger [big_buy; big_sell; small_buy] = (self'', Ok tt) /\
     dict.lookup (MarketMaker.current_positions self'') "X" =
     Some (Position.mk "X" 1)) /\
  Position.mk "X" 0 <> Position.mk "X" 1.
Proof.
  split; [apply perm_skip, perm_swap|].
  split; [eexists; split; reflexivity|].
  split; [eexists; split; reflexivity|].
  intros H.
  apply (f_equal (fun p => PrimFloat.eqb (Position.position_volume p) 0)) in H.
  vm_compute in H. discriminate H.
Qed.

(** C4, amended. Starting from a new MarketMaker, ingesting any sequence of
    client fills ([add_trade]) and execution reports
    ([update_ETF_position]) whose actions are 'buy' or 'sell' returns
    normally; afterwards the Position held in [current_positions] for an
    instrument carries the volume reached from 0 by adding (buy) or
    subtracting (sell), in ingestion order and with the rounding of each
    step, the volumes ingested for that instrument, and an instrument
    without trades has no entry. *)
Theorem positions_accumulate_in_ingestion_order
    (quoted : option (list trades.QuotedTrade.t))
    (completed : option (list trades.CompletedTrade.t))
    (events : list event) :
  forallb (fun e => valid_action (event_action e)) events = true ->
  exists self',
    ingest_all (MarketMaker.init quoted completed) events = (self', Ok tt) /\
    forall ticker,
      dict.lookup (MarketMaker.current_positions self') ticker =
      if traded ticker events
      then Some (Position.mk ticker (binary64.accumulated ticker events 0))
      else None.
Proof.
  intros Hv.
  destruct (ingest_all_accumulates events (MarketMaker.init quoted completed)
              Hv) as (self' & Hrun & Hpos).
  exists self'. split; [exact Hrun|]. intros ticker. rewrite Hpos.
  reflexivity.
Qed.

Lemma positions_accumulate_in_ingestion_order_witness :
  forallb (fun e => valid_action (event_action e)) binary64.sample_events
    = true /\
  exists self',
    ingest_all (MarketMaker.init None None) binary64.sample_events
      = (self', Ok tt) /\
    forall ticker,
      dict.lookup (MarketMaker.current_positions self') ticker =
      if traded ticker binary64.sample_events
      then Some (Position.mk ticker
                   (binary64.accumulated ticker binary64.sample_events 0))
      else None.
Proof.
  split; [reflexivity|].
  apply (positions_accumulate_in_ingestion_order None None
           binary64.sample_events).
  reflexivity.
Defined.

(** X2. Positions move in ingestion order. From any state, a batch of valid
    events leaves each traded instrument with the volume reached from the
    one it held (0 when it had no entry) by applying its events in
    ingestion order, and leaves the other instruments alone. *)
Theorem positions_move_in_ingestion_order (self : MarketMaker.t)
    (events : list event) :
  forallb (fun e => valid_action (event_action e)) events = true ->
  exists self',
    ingest_all self events = (self', Ok tt) /\
    forall ticker,
      dict.lookup (MarketMaker.current_positions self') ticker =
      if traded ticker events
      then
        Some (Position.mk
                (Position.ticker
                   (binary64.position_or_new
                      (MarketMaker.current_positions self) ticker))
                (binary64.accumulated ticker events
                   (Position.position_volume
                      (binary64.position_or_new
                         (MarketMaker.current_positions self) ticker))))
      else dict.lookup (MarketMaker.current_positions self) ticker.
Proof. apply ingest_all_accumulates. Qed.

Lemma positions_move_in_ingestion_order_witness :
  forallb (fun e => valid_action (event_action e)) [small_buy; small_buy]
    = true /\
  exists self',
    ingest_all (binary64.one_trade_ledger two53 1 1) [small_buy; small_buy]
      = (self', Ok tt) /\
    forall ticker,
      dict.lookup (MarketMaker.current_positions self') ticker =
      if traded ticker [small_buy; small_buy]
      then
        Some (Position.mk
                (Position.ticker
                   (binary64.position_or_new
                      (MarketMaker.current_positions
                         (binary64.one_trade_ledger two53 1 1)) ticker))
                (binary64.accumulated ticker [small_buy; small_buy]
                   (Position.position_volume
                      (binary64.position_or_new
                         (MarketMaker.current_positions
                            (binary64.one_trade_ledger two53 1 1)) ticker))))
      else dict.lookup
             (MarketMaker.current_positions
                (binary64.one_trade_ledger two53 1 1)) ticker.
Proof.
  split; [reflexivity|].
  apply (positions_move_in_ingestion_order
           (binary64.one_trade_ledger two53 1 1) [small_buy; small_buy]).
  reflexivity.
Defined.

(** ** The engines *)










(** ** Equity against cash and inventories *)



(** ** The equity-only engine *)









(** ** Quotes *)

(** Why the bounds on the skewed quote are not strict on binary64 numbers.
    The nearest binary64 number to tanh 32 is 1, and wherever [np.tanh]
    returns it the skew is the whole of price * max_skew: with price 100
    and max_skew 0.5 the quote is centred on 150. *)
Lemma skew_reaches_its_bound (tanh : float -> float) :
  tanh 32%float = 1%float ->
  binary64.quotes.skewed_quote tanh 100 0.25 64 2 1 0.5
    = Ok (137.5%float, 162.5%float).
Proof.
  intros H. unfold binary64.quotes.skewed_quote, binary64.quotes.truediv.
  change (PrimFloat.eqb 2 0) with false. cbv iota beta delta [bind].
  change (PrimFloat.div (PrimFloat.mul 1 64) 2) with 32%float.
  rewrite H. reflexivity.
Qed.

(** With an empty inventory and [np.tanh] returning 0 at 0, a base spread
    of 2^-60 on a price of 1 is lost to rounding: bid and offer are both
    the price. *)
Lemma spread_is_absorbed (tanh : float -> float) :
  tanh 0%float = 0%float ->
  binary64.quotes.skewed_quote tanh 1 0x1p-60 0 1 1 0.5
    = Ok (1%float, 1%float).
Proof.
  intros H. unfold binary64.quotes.skewed_quote, binary64.quotes.truediv.
  change (PrimFloat.eqb 1 0) with false. cbv iota beta delta [bind].
  change (PrimFloat.div (PrimFloat.mul 1 0) 1) with 0%float.
  rewrite H. reflexivity.
Qed.
